(** * Sleeposcope preprocessing: a shallow embedding of
      [sleeposcope_modules/preprocessing_module.py] and
      [sleeposcope_modules/sanity_check_module.py].

    Conventions.
    - Instants (pandas timestamps) are integers counting seconds since the
      Unix epoch; a tz-aware timestamp is represented by its instant.
    - NaN / NaT is [None] in an [option].
    - A pandas column indexed by integer labels is a function from labels to
      values ([series]); a DataFrame whose rows are read by label is a list of
      (label, row) pairs, looked up by [loc_row].
    - Python exceptions are the [Err] branch of a small error monad. *)

From Stdlib Require Import ZArith String Ascii Bool List Lia.
Import ListNotations.

(** ** Exceptions *)

Inductive py_error : Type :=
| ValueError
| KeyError
| DateTimeColumnIsDefectiveError
| DataFileIsDefectiveError
| FileIsNotCorrectDataFileError
| FailedToReadCSVError
| DataFrameIsEmpty
| DataFrameIsNone
| DataFrameContainsNans
| Subject_num_does_not_match_subject_files_path.

Definition py_error_eqb (a b : py_error) : bool :=
  match a, b with
  | ValueError, ValueError | KeyError, KeyError
  | DateTimeColumnIsDefectiveError, DateTimeColumnIsDefectiveError
  | DataFileIsDefectiveError, DataFileIsDefectiveError
  | FileIsNotCorrectDataFileError, FileIsNotCorrectDataFileError
  | FailedToReadCSVError, FailedToReadCSVError
  | DataFrameIsEmpty, DataFrameIsEmpty
  | DataFrameIsNone, DataFrameIsNone
  | DataFrameContainsNans, DataFrameContainsNans
  | Subject_num_does_not_match_subject_files_path,
    Subject_num_does_not_match_subject_files_path => true
  | _, _ => false
  end.

Inductive result (A : Type) : Type :=
| Ok (a : A)
| Err (e : py_error).
Arguments Ok {A} a.
Arguments Err {A} e.

Definition bind {A B : Type} (m : result A) (k : A -> result B) : result B :=
  match m with
  | Ok a => k a
  | Err e => Err e
  end.

Notation "x <- m ;; k" := (bind m (fun x => k))
  (at level 61, m at next level, right associativity).

(** ** Python builtins used by the modules *)

(** [min(iterable)]: the first element, replaced by every later element
    that compares smaller. *)
Definition py_min (l : list Z) : result Z :=
  match l with
  | [] => Err ValueError
  | x :: t => Ok (fold_left (fun cur y => if Z.ltb y cur then y else cur) t x)
  end.

(** [max(iterable)] over a list of non-negative integers. *)
Definition py_max_nat (l : list nat) : result nat :=
  match l with
  | [] => Err ValueError
  | x :: t => Ok (fold_left (fun cur y => if Nat.ltb cur y then y else cur) t x)
  end.

(** Comparison of two possibly-NaT timestamps: any comparison with NaT is
    false. *)
Definition opt_lt (a b : option Z) : bool :=
  match a, b with
  | Some x, Some y => Z.ltb x y
  | _, _ => false
  end.

(** [min] over a column that may hold NaT. *)
Definition py_min_opt (l : list (option Z)) : result (option Z) :=
  match l with
  | [] => Err ValueError
  | x :: t => Ok (fold_left (fun cur y => if opt_lt y cur then y else cur) t x)
  end.

Definition mem_nat (x : nat) (l : list nat) : bool := existsb (Nat.eqb x) l.

Fixpoint nodupb (l : list nat) : bool :=
  match l with
  | [] => true
  | x :: t => negb (mem_nat x t) && nodupb t
  end.

(** ** DataFrames and the validity gate [check_if_data_frame_is_valid] *)

(** The two things the gate inspects on a DataFrame. *)
Class Frame (F : Type) := {
  frame_len : F -> nat;
  frame_any_null : F -> bool
}.

Definition check_if_data_frame_is_valid {F : Type} `{Frame F}
    (df : option F) : result unit :=
  match df with
  | None => Err DataFrameIsNone
  | Some d =>
      if Nat.eqb (frame_len d) 0 then Err DataFrameIsEmpty
      else if frame_any_null d then Err DataFrameContainsNans
      else Ok tt
  end.

(** ** The subject DataFrame *)

(** A record of [subject_df] after [read_data]: it has passed the gate, so no
    field is NaN. [date_time] is the instant; [meas_sig_str] is numeric. *)
Record rec := mkRec {
  rec_date_time : Z;
  rec_meas_sig_str : Z;
  rec_status : string
}.

(** A row of a re-indexed DataFrame: every field may be NaN. *)
Record row := mkRow {
  date_time : option Z;
  meas_sig_str : option Z;
  status : option string
}.

Definition nan_row : row := mkRow None None None.

Definition row_of_rec (r : rec) : row :=
  mkRow (Some (rec_date_time r)) (Some (rec_meas_sig_str r))
        (Some (rec_status r)).

(** A DataFrame indexed by integer labels ([secs]). *)
Definition dense_frame := list (nat * row).

Definition row_has_null (r : row) : bool :=
  match date_time r, meas_sig_str r, status r with
  | Some _, Some _, Some _ => false
  | _, _, _ => true
  end.

#[export] Instance dense_frame_Frame : Frame dense_frame := {
  frame_len := fun df => length df;
  frame_any_null := fun df => existsb (fun p => row_has_null (snd p)) df
}.

(** [df.loc[l]]: the row labelled [l]. *)
Definition loc_row (df : dense_frame) (l : nat) : option row :=
  match find (fun p => Nat.eqb (fst p) l) df with
  | Some (_, r) => Some r
  | None => None
  end.

Definition set_meas_sig_str (r : row) (v : option Z) : row :=
  mkRow (date_time r) v (status r).

Definition set_date_time (r : row) (v : option Z) : row :=
  mkRow v (meas_sig_str r) (status r).

(** [df.loc[l, col] = v] for the column written by [upd]. *)
Definition loc_set (upd : row -> option Z -> row) (df : dense_frame)
    (l : nat) (v : option Z) : dense_frame :=
  map (fun p => if Nat.eqb (fst p) l then (fst p, upd (snd p) v) else p) df.

(** [df.loc[labels, col] = values], position for position. *)
Definition loc_set_many (upd : row -> option Z -> row) (df : dense_frame)
    (labels : list nat) (vals : list (option Z)) : dense_frame :=
  fold_left (fun d lv => loc_set upd d (fst lv) (snd lv)) (combine labels vals) df.

(** A column of [sig_str_df], read by label. *)
Definition series := nat -> option Z.

Definition series_set (s : series) (l : nat) (v : option Z) : series :=
  fun i => if Nat.eqb i l then v else s i.

Definition series_set_many (s : series) (labels : list nat)
    (vals : list (option Z)) : series :=
  fold_left (fun s' lv => series_set s' (fst lv) (snd lv)) (combine labels vals) s.

(** [s.loc[labels]] for an integer label that may be negative: a label absent
    from the index reads as NaN (the [.loc] list-lookup behaviour of the
    pandas releases the module was written against). *)
Definition loc_get (s : series) (z : Z) : option Z :=
  if Z.ltb z 0 then None else s (Z.to_nat z).

(** ** [num_seconds] *)

Definition num_seconds (pandas_time_stamp : list Z) : result (list nat) :=
  m <- py_min pandas_time_stamp;;
  Ok (map (fun t => Z.to_nat (t - m)) pandas_time_stamp).

(** ** [fill_missing_time_stamps] *)

Definition fill_missing_time_stamps (full_subject_df : dense_frame)
    (missing_secs : list nat) : result dense_frame :=
  m <- py_min_opt (map (fun p => date_time (snd p)) full_subject_df);;
  let missing_times :=
    map (fun s => option_map (fun t => (t + Z.of_nat s)%Z) m) missing_secs in
  Ok (loc_set_many set_date_time full_subject_df missing_secs missing_times).

(** ** [fill_missing_signal_values] *)

(** [sig_str_df.newcol]: -1000 on the missing seconds, 0 elsewhere. *)
Definition newcol_of (missing_secs : list nat) (i : nat) : Z :=
  if mem_nat i missing_secs then (-1000)%Z else 0%Z.

(** [(newcol.shift(1) != newcol).astype(int).cumsum()] over the labels
    [0, 1, 2, ...]: the shifted value of the first row is NaN, which differs
    from everything, so the first row has block 1. *)
Fixpoint block_of (newcol : nat -> Z) (i : nat) : nat :=
  match i with
  | O => 1
  | S j => block_of newcol j + (if Z.eqb (newcol (S j)) (newcol j) then 0 else 1)
  end.

Definition key_eqb (a b : nat * Z) : bool :=
  Nat.eqb (fst a) (fst b) && Z.eqb (snd a) (snd b).

Fixpoint dedup_adj (l : list (nat * Z)) : list (nat * Z) :=
  match l with
  | [] => []
  | x :: t =>
      match t with
      | y :: _ => if key_eqb x y then dedup_adj t else x :: dedup_adj t
      | [] => [x]
      end
  end.

(** The group key [(block, newcol)] of a label. *)
Definition key_of (newcol : nat -> Z) (i : nat) : nat * Z :=
  (block_of newcol i, newcol i).

(** The keys of [groupby(['block', 'newcol'])], in sorted order: [block] is
    non-decreasing along the labels, so the sorted distinct keys are the
    adjacent-distinct ones. *)
Definition group_keys (labels : list nat) (newcol : nat -> Z) : list (nat * Z) :=
  dedup_adj (map (key_of newcol) labels).

(** [group.index] of the group with key [k]. *)
Definition group_index (labels : list nat) (newcol : nat -> Z) (k : nat * Z)
    : list nat :=
  filter (fun i => key_eqb (key_of newcol i) k) labels.

(** One iteration of [for (i, j), group in block_groups]. The column
    [block_length] is written but never read, so it is not modelled. *)
Definition fill_step (orig : series) (missing_secs labels : list nat)
    (newcol : nat -> Z) (st : dense_frame * series) (k : nat * Z)
    : dense_frame * series :=
  let '(full_subject_df, copy_sig) := st in
  if Z.eqb (snd k) (-1000) then
    let missing_block_inds := group_index labels newcol k in
    let L := length missing_block_inds in
    if Nat.leb L (5 * 60) then
      let filler := map (fun i => loc_get orig (Z.of_nat i - Z.of_nat L))
                        missing_block_inds in
      let copy_sig' := series_set_many copy_sig missing_block_inds filler in
      let full' := loc_set_many set_meas_sig_str full_subject_df missing_secs
                                (map copy_sig' missing_secs) in
      (full', copy_sig')
    else (full_subject_df, copy_sig)
  else (full_subject_df, copy_sig).

(** [sig_str_df] is a copy of the [meas_sig_str] column ([orig]); its
    [copy_sig] column starts as NaN. *)
Definition fill_missing_signal_values (full_subject_df : dense_frame)
    (missing_secs : list nat) : dense_frame :=
  let labels := map fst full_subject_df in
  let orig : series := fun i =>
    match loc_row full_subject_df i with
    | Some r => meas_sig_str r
    | None => None
    end in
  let newcol := newcol_of missing_secs in
  fst (fold_left (fill_step orig missing_secs labels newcol)
                 (group_keys labels newcol)
                 (full_subject_df, fun _ => None)).

(** ** [fill_missing_data] *)

(** [subject_df.reindex(continuous_secs)]: row [s] of the result is the row
    labelled [s], or a NaN row. *)
Definition reindex_row (subject_df : dense_frame) (s : nat) : row :=
  match loc_row subject_df s with
  | Some r => r
  | None => nan_row
  end.

Definition fill_missing_data (subject_df : list rec) : result dense_frame :=
  secs <- num_seconds (map rec_date_time subject_df);;
  let indexed := combine secs (map row_of_rec subject_df) in
  mx <- py_max_nat secs;;
  (* continuous_secs = set(range(0, max(subject_df.index))) *)
  let continuous_secs := seq 0 mx in
  (* reindex refuses an index with duplicate labels *)
  if negb (nodupb secs) && negb (Nat.eqb mx 0) then Err ValueError else
  let full_subject_df := map (fun s => (s, reindex_row indexed s)) continuous_secs in
  let missing_secs := filter (fun s => negb (mem_nat s secs)) continuous_secs in
  full <- match missing_secs with
          | [] => Ok indexed
          | _ =>
              f <- fill_missing_time_stamps full_subject_df missing_secs;;
              Ok (fill_missing_signal_values f missing_secs)
          end;;
  match check_if_data_frame_is_valid (Some full) with
  | Ok _ => Ok full
  | Err DataFrameContainsNans => Ok full
  | Err e => Err e
  end.

(** The seconds of the input records, as [num_seconds] computes them. *)
Definition input_secs (subject_df : list rec) : list nat :=
  match num_seconds (map rec_date_time subject_df) with
  | Ok s => s
  | Err _ => []
  end.

(** The measured signal of the input record at second [j]. *)
Definition sig_of_sec (subject_df : list rec) (j : nat) : option Z :=
  match find (fun p => Nat.eqb (fst p) j)
             (combine (input_secs subject_df) subject_df) with
  | Some (_, r) => Some (rec_meas_sig_str r)
  | None => None
  end.

(** The signal value of the output row labelled [s] ([None]: no such row). *)
Definition meas_at (df : dense_frame) (s : nat) : option (option Z) :=
  option_map meas_sig_str (loc_row df s).

(** The [date_time] of the output row labelled [s] ([None]: no such row). *)
Definition time_at (df : dense_frame) (s : nat) : option (option Z) :=
  option_map date_time (loc_row df s).

Definition ex_recs (l : list (Z * Z)) : list rec :=
  map (fun p => mkRec (1495756799 + fst p)%Z (snd p) "ok") l.

(** What [fill_missing_data] makes of [ex_recs [(0, 5); (1, 6); (3, 7)]]. *)
Definition fill_example_out : dense_frame :=
  [(0%nat, mkRow (Some 1495756799%Z) (Some 5%Z) (Some "ok"%string));
   (1%nat, mkRow (Some 1495756800%Z) (Some 6%Z) (Some "ok"%string));
   (2%nat, mkRow (Some 1495756801%Z) (Some 6%Z) None)].

(** ** [read_data]: merging the per-file batches (lines 34-52) *)

(** A DataFrame read from one csv file: its column headers and its cells
    (NaN is [None]). *)
Record csv_frame := mkCsv {
  columns : list string;
  cells : list (list (option string))
}.

#[export] Instance csv_frame_Frame : Frame csv_frame := {
  frame_len := fun d => length (cells d);
  frame_any_null := fun d =>
    existsb (existsb (fun c => match c with None => true | Some _ => false end)) (cells d)
}.

Fixpoint list_string_eqb (a b : list string) : bool :=
  match a, b with
  | [], [] => true
  | x :: a', y :: b' => String.eqb x y && list_string_eqb a' b'
  | _, _ => false
  end.

Definition expected_columns : list string := ["name"; "time"; "meas_sig_str"; "status"]%string.

Definition check_file_df_content (file_df : option csv_frame) : result unit :=
  match check_if_data_frame_is_valid file_df with
  | Err DataFrameIsNone => Err FailedToReadCSVError
  | Err DataFrameIsEmpty => Err DataFileIsDefectiveError
  | Err DataFrameContainsNans => Err DataFileIsDefectiveError
  | Err e => Err e
  | Ok _ =>
      match file_df with
      | Some d => if list_string_eqb (columns d) expected_columns then Ok tt
                  else Err FileIsNotCorrectDataFileError
      | None => Ok tt
      end
  end.

Definition option_to_list {A : Type} (o : option A) : list A :=
  match o with Some a => [a] | None => [] end.

(** The loop over the files: the kept DataFrames, in order, and the names of
    the files reported as incorrect by the [print] warning. Only
    [FileIsNotCorrectDataFileError] is caught. *)
Fixpoint collect_file_dfs (files : list (string * option csv_frame))
    : result (list csv_frame * list string) :=
  match files with
  | [] => Ok ([], [])
  | (file_name, file_df) :: rest =>
      match check_file_df_content file_df with
      | Ok _ =>
          r <- collect_file_dfs rest;;
          Ok (option_to_list file_df ++ fst r, snd r)
      | Err FileIsNotCorrectDataFileError =>
          r <- collect_file_dfs rest;;
          Ok (fst r, file_name :: snd r)
      | Err e => Err e
      end
  end.

(** [pd.concat(file_dfs, ignore_index=True)]: an empty list raises
    [ValueError]. *)
Definition pd_concat (dfs : list csv_frame) : result csv_frame :=
  match dfs with
  | [] => Err ValueError
  | d :: _ => Ok (mkCsv (columns d) (flat_map cells dfs))
  end.

Definition read_data_batches (files : list (string * option csv_frame))
    : result (csv_frame * list string) :=
  r <- collect_file_dfs files;;
  subject_df <- pd_concat (fst r);;
  _ <- check_if_data_frame_is_valid (Some subject_df);;
  Ok (subject_df, snd r).

(** Vocabulary for stating what [read_data] does with a list of files: a
    batch the gate rejects (unread, empty, or with a NaN), the frames kept,
    and the files reported as having the wrong columns. *)
Definition batch_fatal (file_df : option csv_frame) : bool :=
  match file_df with
  | None => true
  | Some d => Nat.eqb (length (cells d)) 0 || frame_any_null d
  end.

Definition right_columns (d : csv_frame) : bool :=
  list_string_eqb (columns d) expected_columns.

Definition kept_frames (files : list (string * option csv_frame)) : list csv_frame :=
  flat_map (fun f => match snd f with
                     | Some d => if right_columns d then [d] else []
                     | None => []
                     end) files.

Definition warned_files (files : list (string * option csv_frame)) : list string :=
  map fst (filter (fun f => match snd f with
                            | Some d => negb (right_columns d)
                            | None => false
                            end) files).

(** A one-row batch with the given columns and cells. *)
Definition one_row_batch (cols : list string) (r : list (option string)) : csv_frame :=
  mkCsv cols [r].

(** ** [clean_up] *)

(** [list.index]-style lookup of a column name. *)
Fixpoint py_index (x : string) (l : list string) : option nat :=
  match l with
  | [] => None
  | y :: t => if String.eqb y x then Some 0%nat
              else option_map S (py_index x t)
  end.

Definition remove_nth {A : Type} (n : nat) (l : list A) : list A :=
  firstn n l ++ skipn (S n) l.

(** [del df[name]]: [KeyError] if there is no such column. *)
Definition del_column (name : string) (d : csv_frame) : result csv_frame :=
  match py_index name (columns d) with
  | None => Err KeyError
  | Some i => Ok (mkCsv (remove_nth i (columns d)) (map (remove_nth i) (cells d)))
  end.

(** [df[name]] as a list of cells. *)
Definition get_column (name : string) (d : csv_frame) : result (list (option string)) :=
  match py_index name (columns d) with
  | None => Err KeyError
  | Some i => Ok (map (fun r => nth i r None) (cells d))
  end.

(** [s != 'time'] on a cell; NaN differs from every string. *)
Definition ne_time (c : option string) : bool :=
  match c with
  | Some x => negb (String.eqb x "time")
  | None => true
  end.

Definition clean_up (subject_df : csv_frame) : result csv_frame :=
  d1 <- del_column "name" subject_df;;
  time_col <- get_column "time" d1;;
  let mask := map ne_time time_col in
  let d2 := mkCsv (columns d1) (map snd (filter fst (combine mask (cells d1)))) in
  _ <- check_if_data_frame_is_valid (Some d2);;
  Ok d2.

(** A data file with one repeated header row. *)
Definition clean_up_example : csv_frame :=
  mkCsv expected_columns
    [[Some "s1"; Some "2017-05-25T23:59:59Z"; Some "-61"; Some "ok"];
     [Some "name"; Some "time"; Some "meas_sig_str"; Some "status"];
     [Some "s1"; Some "2017-05-26T00:00:01Z"; Some "-60"; Some "ok"]]%string.

(** ** [convert_to_local_time] *)

(** [s.replace(c, r)] for a one-character [c]. *)
Fixpoint py_replace_char (c : ascii) (r s : string) : string :=
  match s with
  | EmptyString => EmptyString
  | String x t =>
      if Ascii.eqb x c then String.append r (py_replace_char c r t)
      else String x (py_replace_char c r t)
  end.

Section TimeNormalizer.

(** The library parser of one date string, returning the UTC instant, or
    [None] when the string cannot be parsed. *)
Variable parse_datetime : string -> option Z.

(** [pd.to_datetime(series, utc=True)] with [errors='raise']. *)
Fixpoint pd_to_datetime (l : list string) : result (list Z) :=
  match l with
  | [] => Ok []
  | s :: t =>
      match parse_datetime s with
      | None => Err ValueError
      | Some x => ts <- pd_to_datetime t;; Ok (x :: ts)
      end
  end.

(** [tz_localize('UTC')] and [tz_convert('US/Pacific')] keep the instant. *)
Definition convert_to_local_time (time_stamps : list string) : result (list Z) :=
  let date_time :=
    map (fun x => py_replace_char "T" " " (py_replace_char "Z" "" x)) time_stamps in
  match pd_to_datetime date_time with
  | Err ValueError => Err DateTimeColumnIsDefectiveError
  | Err e => Err e
  | Ok dt => Ok dt
  end.

End TimeNormalizer.

(** A parser of the documented format [yyyy-mm-dd hh:mm:ss] (after the
    replacements), used to run [convert_to_local_time] on examples. *)
Definition digit_val (c : ascii) : option Z :=
  let n := nat_of_ascii c in
  if (48 <=? n)%nat && (n <=? 57)%nat then Some (Z.of_nat n - 48)%Z else None.

Fixpoint parse_digits (s : string) (n : nat) (acc : Z) : option (Z * string) :=
  match n with
  | O => Some (acc, s)
  | S m =>
      match s with
      | String c t =>
          match digit_val c with
          | Some d => parse_digits t m (acc * 10 + d)%Z
          | None => None
          end
      | EmptyString => None
      end
  end.

Definition expect_char (c : ascii) (s : string) : option string :=
  match s with
  | String x t => if Ascii.eqb x c then Some t else None
  | EmptyString => None
  end.

(** Days from 1970-01-01 to the civil date [y-m-d]. *)
Definition days_from_civil (y m d : Z) : Z :=
  let y' := if (m <=? 2)%Z then (y - 1)%Z else y in
  let era := (y' / 400)%Z in
  let yoe := (y' - era * 400)%Z in
  let doy := ((153 * (if (2 <? m)%Z then m - 3 else m + 9) + 2) / 5 + d - 1)%Z in
  let doe := (yoe * 365 + yoe / 4 - yoe / 100 + doy)%Z in
  (era * 146097 + doe - 719468)%Z.

Definition parse_iso_utc (s : string) : option Z :=
  match parse_digits s 4 0 with None => None | Some (y, s1) =>
  match expect_char "-" s1 with None => None | Some s2 =>
  match parse_digits s2 2 0 with None => None | Some (mo, s3) =>
  match expect_char "-" s3 with None => None | Some s4 =>
  match parse_digits s4 2 0 with None => None | Some (d, s5) =>
  match expect_char " " s5 with None => None | Some s6 =>
  match parse_digits s6 2 0 with None => None | Some (hh, s7) =>
  match expect_char ":" s7 with None => None | Some s8 =>
  match parse_digits s8 2 0 with None => None | Some (mi, s9) =>
  match expect_char ":" s9 with None => None | Some s10 =>
  match parse_digits s10 2 0 with None => None | Some (ss, s11) =>
  match s11 with
  | EmptyString =>
      if (1 <=? mo)%Z && (mo <=? 12)%Z && (1 <=? d)%Z && (d <=? 31)%Z &&
         (hh <? 24)%Z && (mi <? 60)%Z && (ss <? 60)%Z
      then Some (days_from_civil y mo d * 86400 + hh * 3600 + mi * 60 + ss)%Z
      else None
  | _ => None
  end end end end end end end end end end end end.

(** ** [divide_to_24_hour_periods] *)

(** [series[l]] on an integer-labelled series: [KeyError] if absent. *)
Definition loc_label (s : list (nat * Z)) (l : nat) : result Z :=
  match find (fun p => Nat.eqb (fst p) l) s with
  | Some (_, v) => Ok v
  | None => Err KeyError
  end.

Section DayPartitioner.

(** The target time zone: the wall-clock reading (seconds since the epoch of
    the local calendar) of an instant, and [tz_localize] of a wall-clock
    reading. *)
Variable to_local : Z -> Z.
Variable localize : Z -> Z.

(** [t.date()] as a day count, and [t.hour]. *)
Definition local_date (t : Z) : Z := (to_local t / 86400)%Z.
Definition local_hour (t : Z) : Z := ((to_local t mod 86400) / 3600)%Z.

(** [pd.to_datetime(str(date) + ' 12:00:00')], a naive wall-clock reading. *)
Definition noon_of_date (d : Z) : Z := (d * 86400 + 12 * 3600)%Z.

(** [while next_day_onset < end_of_time: append; add 24 hours]. Each round
    adds 86400 seconds, so [loop_fuel] rounds always suffice. *)
Fixpoint collect_onsets (fuel : nat) (next_day_onset end_of_time : Z)
    (day_onsets : list Z) : list Z * Z :=
  match fuel with
  | O => (day_onsets, next_day_onset)
  | S f =>
      if Z.ltb next_day_onset end_of_time
      then collect_onsets f (next_day_onset + 86400) end_of_time
                          (day_onsets ++ [next_day_onset])
      else (day_onsets, next_day_onset)
  end.

Definition loop_fuel (next_day_onset end_of_time : Z) : nat :=
  S (Z.to_nat ((end_of_time - next_day_onset) / 86400)).

(** The day onsets and the final value of [next_day_onset]. *)
Definition compute_day_onsets (date_time : list (nat * Z)) : result (list Z * Z) :=
  t0 <- loc_label date_time 0;;
  end_of_time <- loc_label date_time (length date_time - 1);;
  let next_day_onset :=
    if Z.ltb (local_hour t0) 12 then localize (noon_of_date (local_date t0))
    else localize (noon_of_date (local_date t0) + 86400) in
  Ok (collect_onsets (loop_fuel next_day_onset end_of_time) next_day_onset
                     end_of_time [t0]).

(** [for d in range(len(day_onsets))]: every record in
    [day_onsets[d] <= t < tomorrow] is given day [d + 1]. *)
Definition assign_day (date_time : list (nat * Z)) (day_onsets : list Z)
    (next_day_onset : Z) (day_nums : list (option nat)) (d : nat)
    : list (option nat) :=
  let tomorrow :=
    if Nat.ltb (d + 1) (length day_onsets - 1) then nth (d + 1) day_onsets 0%Z
    else next_day_onset in
  let onset := nth d day_onsets 0%Z in
  map (fun p => let '(t, v) := p in
                if Z.leb onset t && Z.ltb t tomorrow then Some (d + 1)%nat else v)
      (combine (map snd date_time) day_nums).

Definition divide_to_24_hour_periods (date_time : list (nat * Z))
    : result (list (option nat)) :=
  r <- compute_day_onsets date_time;;
  let '(day_onsets, next_day_onset) := r in
  Ok (fold_left (assign_day date_time day_onsets next_day_onset)
                (seq 0 (length day_onsets))
                (repeat None (length date_time))).

End DayPartitioner.

(** US/Pacific in summer (PDT, UTC-7): a fixed offset of seven hours. *)
Definition pdt_to_local (t : Z) : Z := (t - 25200)%Z.
Definition pdt_localize (w : Z) : Z := (w + 25200)%Z.

(** A timeline of [n] consecutive seconds starting at the instant [t0],
    labelled [0 .. n - 1]. *)
Definition dense_times (t0 : Z) (n : nat) : list (nat * Z) :=
  map (fun i => (i, t0 + Z.of_nat i)%Z) (seq 0 n).

(** ** [check_if_subject_num_matches_subject_files_path] *)

Fixpoint digits_of (fuel : nat) (n : Z) (acc : string) : string :=
  match fuel with
  | O => acc
  | S f =>
      let acc' := String (ascii_of_nat (48 + Z.to_nat (n mod 10))) acc in
      if Z.ltb n 10 then acc' else digits_of f (n / 10) acc'
  end.

(** [str(n)] for a Python int. *)
Definition py_str_int (z : Z) : string :=
  let ds := digits_of (S (Z.to_nat (Z.log2 (Z.abs z)))) (Z.abs z) EmptyString in
  if Z.ltb z 0 then String "-" ds else ds.

(** [s[-k:]]: the last [k] characters, the whole string when [k] exceeds its
    length, and (since [-0 = 0]) the whole string when [k = 0]. *)
Definition py_neg_slice (s : string) (k : nat) : string :=
  if Nat.eqb k 0 then s else substring (String.length s - k) k s.

Definition check_if_subject_num_matches_subject_files_path (subject_num : Z)
    (subject_files_path : string) : result unit :=
  let subject_num_str := py_str_int subject_num in
  if String.eqb (py_neg_slice subject_files_path (String.length subject_num_str))
                subject_num_str
  then Ok tt
  else Err Subject_num_does_not_match_subject_files_path.

(** ** Auxiliary notions used in the proofs *)

(** A key whose group is a missing block of at most five minutes. *)
Definition short_missing_key (labels : list nat) (newcol : nat -> Z) (k : nat * Z) : bool :=
  Z.eqb (snd k) (-1000) && Nat.leb (length (group_index labels newcol k)) (5 * 60).

(** The length of the block a label belongs to. *)
Definition block_len (labels : list nat) (newcol : nat -> Z) (z : nat) : nat :=
  length (group_index labels newcol (key_of newcol z)).

(** The value the loop copies into a missing label of a short block. *)
Definition copy_value (orig : series) (labels : list nat) (newcol : nat -> Z) (z : nat)
    : option Z :=
  loc_get orig (Z.of_nat z - Z.of_nat (block_len labels newcol z)).

(** The state of the block loop after the groups [done] have been processed,
    starting from the frame [full0]. *)
Definition loop_inv (orig : series) (missing_secs labels : list nat) (newcol : nat -> Z)
    (full0 : dense_frame) (done : list (nat * Z)) (st : dense_frame * series) : Prop :=
  map fst (fst st) = map fst full0 /\
  (forall z, mem_nat z missing_secs = false -> meas_at (fst st) z = meas_at full0 z) /\
  (forall z, In z labels -> mem_nat z missing_secs = true ->
             In z (map fst full0) -> meas_at (fst st) z = Some (snd st z)) /\
  (forall z, In z labels ->
     snd st z = if existsb (fun k => key_eqb (key_of newcol z) k &&
                                     short_missing_key labels newcol k) done
                then copy_value orig labels newcol z else None).

(** The seconds [fill_missing_data] treats as missing. *)
Definition missing_of (df : list rec) (mx : nat) : list nat :=
  filter (fun s => negb (mem_nat s (input_secs df))) (seq 0 mx).

Fixpoint nodupb_Z (l : list Z) : bool :=
  match l with
  | [] => true
  | x :: t => negb (existsb (Z.eqb x) t) && nodupb_Z t
  end.


(** * Proofs *)

(** ** Label lookups and column updates *)

Section FrameLemmas.

Lemma mem_nat_In (x : nat) (l : list nat) : mem_nat x l = true <-> In x l.
Proof.
  unfold mem_nat. rewrite existsb_exists. split.
  - intros [y [Hy E]]. apply Nat.eqb_eq in E. subst. exact Hy.
  - intros H. exists x. split; [exact H | apply Nat.eqb_refl].
Qed.

Lemma mem_nat_false (x : nat) (l : list nat) : mem_nat x l = false <-> ~ In x l.
Proof.
  rewrite <- mem_nat_In. destruct (mem_nat x l); split; congruence.
Qed.

Lemma loc_row_None (df : dense_frame) (z : nat) :
  loc_row df z = None <-> ~ In z (map fst df).
Proof.
  unfold loc_row. induction df as [|[l r] t IH]; simpl.
  - tauto.
  - destruct (Nat.eqb l z) eqn:E.
    + apply Nat.eqb_eq in E. split; [discriminate | intros H; exfalso; auto].
    + apply Nat.eqb_neq in E. rewrite IH. split; intros H; [intros [H'|H']; auto | auto].
Qed.

Lemma map_fst_loc_set upd df l v : map fst (loc_set upd df l v) = map fst df.
Proof.
  unfold loc_set. rewrite map_map. apply map_ext. intros [a r]. simpl.
  destruct (Nat.eqb a l); reflexivity.
Qed.

Lemma map_fst_loc_set_many upd df ls vs :
  map fst (loc_set_many upd df ls vs) = map fst df.
Proof.
  unfold loc_set_many. revert df vs. induction ls as [|a ls IH]; intros df vs.
  - reflexivity.
  - destruct vs as [|v vs]; [reflexivity|]. simpl.
    rewrite IH. apply map_fst_loc_set.
Qed.

Lemma loc_row_loc_set upd df l v z :
  loc_row (loc_set upd df l v) z =
  if Nat.eqb z l then option_map (fun r => upd r v) (loc_row df z)
  else loc_row df z.
Proof.
  unfold loc_row, loc_set. induction df as [|[a r] t IH]; simpl.
  - destruct (Nat.eqb z l); reflexivity.
  - destruct (Nat.eqb a l) eqn:Ea; simpl; destruct (Nat.eqb a z) eqn:Ez.
    + apply Nat.eqb_eq in Ea, Ez. subst. rewrite Nat.eqb_refl. reflexivity.
    + rewrite IH. reflexivity.
    + apply Nat.eqb_eq in Ez. apply Nat.eqb_neq in Ea. subst.
      destruct (Nat.eqb z l) eqn:E; [apply Nat.eqb_eq in E; congruence | reflexivity].
    + exact IH.
Qed.

Lemma meas_at_loc_set_date_time df ls vs z :
  meas_at (loc_set_many set_date_time df ls vs) z = meas_at df z.
Proof.
  unfold loc_set_many. revert df vs. induction ls as [|a ls IH]; intros df vs.
  - reflexivity.
  - destruct vs as [|v vs]; [reflexivity|]. simpl. rewrite IH.
    unfold meas_at. rewrite loc_row_loc_set.
    destruct (Nat.eqb z a); [|reflexivity].
    destruct (loc_row df z); reflexivity.
Qed.

Lemma combine_map_r {A B : Type} (f : A -> B) (l : list A) :
  combine l (map f l) = map (fun a => (a, f a)) l.
Proof. induction l as [|a l IH]; simpl; [reflexivity | rewrite IH; reflexivity]. Qed.

Lemma meas_at_loc_set_meas df ls (f : nat -> option Z) z :
  meas_at (loc_set_many set_meas_sig_str df ls (map f ls)) z =
  if mem_nat z ls then option_map (fun _ => f z) (loc_row df z)
  else meas_at df z.
Proof.
  unfold loc_set_many. rewrite combine_map_r. revert df.
  induction ls as [|a ls IH]; intros df; simpl.
  - reflexivity.
  - rewrite IH. unfold mem_nat in *. simpl.
    unfold meas_at. rewrite !loc_row_loc_set.
    destruct (Nat.eqb z a) eqn:E; simpl.
    + apply Nat.eqb_eq in E. subst.
      destruct (existsb (Nat.eqb a) ls); destruct (loc_row df a); reflexivity.
    + reflexivity.
Qed.

Lemma series_set_many_map (s : series) ls (f : nat -> option Z) i :
  series_set_many s ls (map f ls) i = if mem_nat i ls then f i else s i.
Proof.
  unfold series_set_many. rewrite combine_map_r. revert s.
  induction ls as [|a ls IH]; intros s; simpl.
  - reflexivity.
  - rewrite IH. unfold mem_nat, series_set. simpl.
    destruct (Nat.eqb i a) eqn:E; simpl.
    + apply Nat.eqb_eq in E. subst. destruct (existsb (Nat.eqb a) ls); reflexivity.
    + reflexivity.
Qed.

End FrameLemmas.

(** ** The block loop of [fill_missing_signal_values] *)

Section BlockLoop.

Variable orig : series.
Variable missing_secs labels : list nat.
Variable newcol : nat -> Z.
Variable full0 : dense_frame.

Local Abbreviation short := (short_missing_key labels newcol).
Local Abbreviation inv := (loop_inv orig missing_secs labels newcol full0).

Lemma key_eqb_eq (a b : nat * Z) : key_eqb a b = true <-> a = b.
Proof.
  destruct a as [a1 a2], b as [b1 b2]. unfold key_eqb. simpl.
  rewrite andb_true_iff, Nat.eqb_eq, Z.eqb_eq. split.
  - intros [-> ->]. reflexivity.
  - intros H. inversion H. auto.
Qed.

Lemma mem_group_index z k :
  In z labels -> mem_nat z (group_index labels newcol k) = key_eqb (key_of newcol z) k.
Proof.
  intros Hz. unfold group_index.
  destruct (key_eqb (key_of newcol z) k) eqn:E.
  - apply mem_nat_In. apply filter_In. auto.
  - apply mem_nat_false. intros H. apply filter_In in H. destruct H; congruence.
Qed.

Lemma loop_inv_step done st k :
  inv done st -> inv (done ++ [k]) (fill_step orig missing_secs labels newcol st k).
Proof.
  destruct st as [full copy]. intros [Hf [Hm [Hmiss Hc]]]. simpl in *.
  unfold fill_step.
  destruct (Z.eqb (snd k) (-1000)) eqn:Ek;
  [destruct (Nat.leb (length (group_index labels newcol k)) (5 * 60)) eqn:El|].
  - (* a short missing block: copy, then write the missing seconds *)
    assert (Hs : short k = true)
      by (unfold short_missing_key; rewrite Ek, El; reflexivity).
    set (inds := group_index labels newcol k) in *.
    set (copy' := series_set_many copy inds
                    (map (fun i => loc_get orig (Z.of_nat i - Z.of_nat (length inds))) inds)).
    assert (Hcopy' : forall z, In z labels ->
      copy' z = if existsb (fun k0 => key_eqb (key_of newcol z) k0 && short k0)
                           (done ++ [k]) then copy_value orig labels newcol z else None).
    { intros z Hz. unfold copy'. rewrite series_set_many_map.
      unfold inds. rewrite (mem_group_index z k Hz).
      rewrite existsb_app. simpl. rewrite Hs, andb_true_r, orb_false_r.
      destruct (key_eqb (key_of newcol z) k) eqn:E.
      - apply key_eqb_eq in E. rewrite orb_true_r. unfold copy_value, block_len.
        rewrite E. reflexivity.
      - rewrite orb_false_r. apply Hc. exact Hz. }
    simpl in El |- *. rewrite El. repeat split; simpl.
    + rewrite map_fst_loc_set_many. exact Hf.
    + intros z Hz. rewrite meas_at_loc_set_meas, Hz. apply Hm. exact Hz.
    + intros z Hz Hzm Hz0. rewrite meas_at_loc_set_meas, Hzm.
      destruct (loc_row full z) eqn:R; [reflexivity|].
      apply loc_row_None in R. rewrite Hf in R. contradiction.
    + exact Hcopy'.
  - (* a long missing block: nothing is written *)
    assert (Hs : short k = false)
      by (unfold short_missing_key; rewrite Ek, El; reflexivity).
    simpl in El |- *. rewrite El.
    split; [exact Hf | split; [exact Hm | split; [exact Hmiss |]]].
    intros z Hz. rewrite existsb_app. simpl. rewrite Hs, andb_false_r, orb_false_r.
    apply Hc. exact Hz.
  - (* a measured block *)
    assert (Hs : short k = false)
      by (unfold short_missing_key; rewrite Ek; reflexivity).
    split; [exact Hf | split; [exact Hm | split; [exact Hmiss |]]].
    intros z Hz. rewrite existsb_app. simpl. rewrite Hs, andb_false_r, orb_false_r.
    apply Hc. exact Hz.
Qed.

Lemma loop_inv_fold ks : forall done st,
  inv done st ->
  inv (done ++ ks) (fold_left (fill_step orig missing_secs labels newcol) ks st).
Proof.
  induction ks as [|k ks IH]; intros done st H; simpl.
  - rewrite app_nil_r. exact H.
  - replace (done ++ k :: ks) with ((done ++ [k]) ++ ks)
      by (rewrite <- app_assoc; reflexivity).
    apply IH. apply loop_inv_step. exact H.
Qed.

End BlockLoop.

Lemma In_dedup_adj (x : nat * Z) (l : list (nat * Z)) : In x l -> In x (dedup_adj l).
Proof.
  induction l as [|a t IH]; simpl; [tauto|].
  destruct t as [|y t']; intros [H|H].
  - subst. left. reflexivity.
  - destruct H.
  - subst. destruct (key_eqb x y) eqn:E.
    + apply key_eqb_eq in E. subst. apply IH. left. reflexivity.
    + left. reflexivity.
  - destruct (key_eqb a y); [apply IH; exact H | right; apply IH; exact H].
Qed.

Lemma existsb_key (x : nat * Z) (f : nat * Z -> bool) (l : list (nat * Z)) :
  In x l -> existsb (fun k => key_eqb x k && f k) l = f x.
Proof.
  intros Hx. destruct (f x) eqn:Fx.
  - apply existsb_exists. exists x. split; [exact Hx|]. rewrite Fx, andb_true_r.
    apply key_eqb_eq. reflexivity.
  - destruct (existsb (fun k => key_eqb x k && f k) l) eqn:E; [|reflexivity].
    apply existsb_exists in E. destruct E as [k [_ Hk]].
    apply andb_true_iff in Hk. destruct Hk as [Hk Fk].
    apply key_eqb_eq in Hk. subst. congruence.
Qed.

Section SignalFill.

Variable full : dense_frame.
Variable missing_secs : list nat.

Let labels := map fst full.
Let orig : series := fun i =>
  match loc_row full i with Some r => meas_sig_str r | None => None end.
Let newcol := newcol_of missing_secs.

(** Before the loop, every missing second carries a NaN signal. *)
Hypothesis missing_nan : forall z, In z labels -> mem_nat z missing_secs = true ->
  meas_at full z = Some None.

Lemma fill_signal_loop_inv :
  loop_inv orig missing_secs labels newcol full (group_keys labels newcol)
    (fold_left (fill_step orig missing_secs labels newcol) (group_keys labels newcol)
               (full, fun _ => None)).
Proof.
  apply (loop_inv_fold _ _ _ _ _ _ []).
  repeat split; simpl; auto.
Qed.

(** Measured seconds keep their signal value. *)
Lemma fill_signal_measured z :
  mem_nat z missing_secs = false ->
  meas_at (fill_missing_signal_values full missing_secs) z = meas_at full z.
Proof.
  intros Hz. destruct fill_signal_loop_inv as [_ [Hm _]]. apply Hm. exact Hz.
Qed.

(** A missing second receives the value [block_len] positions earlier when its
    block is at most five minutes long, and stays NaN otherwise. *)
Lemma fill_signal_missing z :
  In z labels -> mem_nat z missing_secs = true ->
  meas_at (fill_missing_signal_values full missing_secs) z =
  Some (if short_missing_key labels newcol (key_of newcol z)
        then copy_value orig labels newcol z else None).
Proof.
  intros Hz Hzm. destruct fill_signal_loop_inv as [_ [_ [Hmiss Hc]]].
  unfold fill_missing_signal_values. fold labels orig newcol.
  rewrite (Hmiss z Hz Hzm Hz), (Hc z Hz).
  rewrite existsb_key; [reflexivity|].
  apply In_dedup_adj. apply in_map. exact Hz.
Qed.

End SignalFill.

(** ** Blocks are the maximal runs of missing or measured seconds *)

Section Blocks.

Variable newcol : nat -> Z.

Lemma block_of_mono i j : (i <= j)%nat -> (block_of newcol i <= block_of newcol j)%nat.
Proof.
  intros H. induction H as [|j H IH]; [lia|]. simpl. lia.
Qed.

Lemma block_of_change j :
  newcol (S j) <> newcol j -> block_of newcol (S j) = S (block_of newcol j).
Proof.
  intros H. simpl. destruct (Z.eqb_spec (newcol (S j)) (newcol j)); [congruence | lia].
Qed.

Lemma block_of_run p q c i :
  (forall m, (p <= m <= q)%nat -> newcol m = c) ->
  (p <= i <= q)%nat -> block_of newcol i = block_of newcol p.
Proof.
  intros Hc Hi. destruct Hi as [Hpi Hiq].
  induction Hpi as [|i Hpi IH]; [reflexivity|].
  simpl. rewrite (Hc (S i)), (Hc i) by lia. rewrite Z.eqb_refl, IH by lia. lia.
Qed.

Lemma count_range p L n :
  length (filter (fun i => Nat.leb p i && Nat.ltb i (p + L)) (seq 0 n)) =
  (Nat.min n (p + L) - Nat.min n p)%nat.
Proof.
  induction n as [|n IH]; [simpl; lia|].
  rewrite seq_S, filter_app, length_app, IH, Nat.add_0_l. cbn [filter].
  destruct (Nat.leb_spec p n), (Nat.ltb_spec n (p + L)); cbn [andb length]; lia.
Qed.

(** The group of a second inside a maximal run [p, p + L) is that run. *)
Lemma group_index_run n p L c z :
  (forall m, (p <= m < p + L)%nat -> newcol m = c) ->
  (1 <= p)%nat -> newcol (p - 1) <> c ->
  ((p + L < n)%nat -> newcol (p + L) <> c) ->
  (p + L <= n)%nat -> (p <= z < p + L)%nat ->
  length (group_index (seq 0 n) newcol (key_of newcol z)) = L.
Proof.
  intros Hrun Hp Hleft Hright Hn Hz.
  assert (Hz' : block_of newcol z = block_of newcol p)
    by (apply (block_of_run p (p + L - 1) c); [intros m Hm; apply Hrun | ]; lia).
  assert (Hbp : block_of newcol p = S (block_of newcol (p - 1))).
  { replace p with (S (p - 1)) at 1 by lia. apply block_of_change.
    replace (S (p - 1)) with p by lia. rewrite Hrun by lia. congruence. }
  unfold group_index.
  rewrite (filter_ext_in _ (fun i => Nat.leb p i && Nat.ltb i (p + L))).
  - rewrite count_range. lia.
  - intros i Hi. apply in_seq in Hi. unfold key_eqb, key_of. simpl.
    destruct (Nat.leb_spec p i), (Nat.ltb_spec i (p + L)); simpl.
    + rewrite (block_of_run p (p + L - 1) c i) by (try (intros m Hm; apply Hrun); lia).
      rewrite Hz', Nat.eqb_refl, (Hrun i), (Hrun z) by lia. apply Z.eqb_refl.
    + assert (Hb : (S (block_of newcol (p + L - 1)) <= block_of newcol i)%nat).
      { rewrite <- block_of_change.
        - replace (S (p + L - 1)) with (p + L) by lia. apply block_of_mono. lia.
        - replace (S (p + L - 1)) with (p + L) by lia.
          rewrite (Hrun (p + L - 1)) by lia. apply Hright. lia. }
      rewrite (block_of_run p (p + L - 1) c (p + L - 1)) in Hb
        by (try (intros m Hm; apply Hrun); lia).
      destruct (Nat.eqb_spec (block_of newcol i) (block_of newcol z)); [lia | reflexivity].
    + assert (Hb : (block_of newcol i <= block_of newcol (p - 1))%nat)
        by (apply block_of_mono; lia).
      destruct (Nat.eqb_spec (block_of newcol i) (block_of newcol z)); [lia | reflexivity].
    + lia.
Qed.

End Blocks.

(** ** [num_seconds], [min] and [max] *)

Lemma fold_min_spec (t : list Z) : forall cur,
  let r := fold_left (fun c y => if Z.ltb y c then y else c) t cur in
  (r = cur \/ In r t) /\ (r <= cur)%Z /\ (forall y, In y t -> (r <= y)%Z).
Proof.
  induction t as [|a t IH]; intros cur; simpl.
  - split; [left; reflexivity | split; [lia | tauto]].
  - destruct (IH (if Z.ltb a cur then a else cur)) as [H1 [H2 H3]].
    destruct (Z.ltb_spec a cur); (split; [|split]).
    + destruct H1 as [H1|H1]; [right; left; symmetry; exact H1 | right; right; exact H1].
    + lia.
    + intros y [Hy|Hy]; [subst; lia | apply H3; exact Hy].
    + destruct H1 as [H1|H1]; [left; exact H1 | right; right; exact H1].
    + exact H2.
    + intros y [Hy|Hy]; [subst; lia | apply H3; exact Hy].
Qed.

Lemma py_min_spec (l : list Z) m :
  py_min l = Ok m -> In m l /\ (forall y, In y l -> (m <= y)%Z).
Proof.
  destruct l as [|x t]; simpl; [discriminate|]. intros H. injection H as <-.
  destruct (fold_min_spec t x) as [H1 [H2 H3]]. split.
  - destruct H1 as [H1|H1]; [left; symmetry; exact H1 | right; exact H1].
  - intros y [Hy|Hy]; [subst; exact H2 | apply H3; exact Hy].
Qed.

Lemma fold_max_spec (t : list nat) : forall cur,
  let r := fold_left (fun c y => if Nat.ltb c y then y else c) t cur in
  (r = cur \/ In r t) /\ (cur <= r)%nat /\ (forall y, In y t -> (y <= r)%nat).
Proof.
  induction t as [|a t IH]; intros cur; simpl.
  - split; [left; reflexivity | split; [lia | tauto]].
  - destruct (IH (if Nat.ltb cur a then a else cur)) as [H1 [H2 H3]].
    destruct (Nat.ltb_spec cur a); (split; [|split]).
    + destruct H1 as [H1|H1]; [right; left; symmetry; exact H1 | right; right; exact H1].
    + lia.
    + intros y [Hy|Hy]; [subst; lia | apply H3; exact Hy].
    + destruct H1 as [H1|H1]; [left; exact H1 | right; right; exact H1].
    + exact H2.
    + intros y [Hy|Hy]; [subst; lia | apply H3; exact Hy].
Qed.

Lemma py_max_nat_spec (l : list nat) m :
  py_max_nat l = Ok m -> In m l /\ (forall y, In y l -> (y <= m)%nat).
Proof.
  destruct l as [|x t]; simpl; [discriminate|]. intros H. injection H as <-.
  destruct (fold_max_spec t x) as [H1 [H2 H3]]. split.
  - destruct H1 as [H1|H1]; [left; symmetry; exact H1 | right; exact H1].
  - intros y [Hy|Hy]; [subst; exact H2 | apply H3; exact Hy].
Qed.

Lemma nodupb_NoDup (l : list nat) : NoDup l -> nodupb l = true.
Proof.
  induction 1 as [|x l Hx Hl IH]; simpl; [reflexivity|].
  rewrite IH, andb_true_r. apply negb_true_iff, mem_nat_false. exact Hx.
Qed.

(** The second of the earliest record is 0, and distinct instants have
    distinct seconds. *)
Lemma num_seconds_spec (ts : list Z) secs :
  num_seconds ts = Ok secs ->
  In 0%nat secs /\ (NoDup ts -> NoDup secs) /\ length secs = length ts.
Proof.
  unfold num_seconds. destruct (py_min ts) as [m|e] eqn:Hm; simpl; [|discriminate].
  intros H. injection H as <-. apply py_min_spec in Hm. destruct Hm as [Hin Hle].
  split; [|split].
  - apply in_map_iff. exists m. split; [|exact Hin]. rewrite Z.sub_diag. reflexivity.
  - intros Hnd. apply NoDup_map_NoDup_ForallPairs; [|exact Hnd].
    intros x y Hx Hy E. pose proof (Hle x Hx) as Hx'. pose proof (Hle y Hy) as Hy'.
    apply (f_equal Z.of_nat) in E. rewrite !Z2Nat.id in E by lia. lia.
  - apply length_map.
Qed.

(** ** The re-indexed timeline *)

Lemma map_fst_combine {A B : Type} (l1 : list A) (l2 : list B) :
  (length l1 <= length l2)%nat -> map fst (combine l1 l2) = l1.
Proof.
  revert l2. induction l1 as [|a l1 IH]; intros [|b l2] H; simpl in *;
    try reflexivity; try lia.
  rewrite IH by lia. reflexivity.
Qed.

Lemma find_label_None {B : Type} (l : list (nat * B)) z :
  find (fun p => Nat.eqb (fst p) z) l = None <-> ~ In z (map fst l).
Proof.
  induction l as [|[a b] t IH]; simpl; [tauto|].
  destruct (Nat.eqb_spec a z).
  - subst. split; [discriminate | intros H; exfalso; auto].
  - rewrite IH. split; [intros H [H'|H']; auto | auto].
Qed.

Lemma input_secs_length df : (length (input_secs df) <= length df)%nat.
Proof.
  unfold input_secs. destruct (num_seconds (map rec_date_time df)) as [s|e] eqn:H.
  - apply num_seconds_spec in H. rewrite length_map in H. lia.
  - simpl. lia.
Qed.

Lemma sig_of_sec_None df z :
  ~ In z (input_secs df) -> sig_of_sec df z = None.
Proof.
  intros H. unfold sig_of_sec.
  assert (E : find (fun p => Nat.eqb (fst p) z) (combine (input_secs df) df) = None).
  { apply find_label_None. rewrite map_fst_combine by apply input_secs_length. exact H. }
  rewrite E. reflexivity.
Qed.

Lemma sig_of_sec_Some df z :
  In z (input_secs df) -> sig_of_sec df z <> None.
Proof.
  intros H. unfold sig_of_sec.
  destruct (find (fun p => Nat.eqb (fst p) z) (combine (input_secs df) df))
    as [[a r]|] eqn:E; [discriminate|].
  apply find_label_None in E. rewrite map_fst_combine in E by apply input_secs_length.
  contradiction.
Qed.

Lemma loc_row_indexed (secs : list nat) df z :
  loc_row (combine secs (map row_of_rec df)) z =
  match find (fun p => Nat.eqb (fst p) z) (combine secs df) with
  | Some (_, r) => Some (row_of_rec r)
  | None => None
  end.
Proof.
  unfold loc_row. revert df. induction secs as [|s secs IH]; intros [|r df]; simpl;
    try reflexivity.
  destruct (Nat.eqb s z); [reflexivity | apply IH].
Qed.

Lemma loc_row_map_seq (g : nat -> row) n : forall a z,
  loc_row (map (fun s => (s, g s)) (seq a n)) z =
  if Nat.leb a z && Nat.ltb z (a + n) then Some (g z) else None.
Proof.
  unfold loc_row. induction n as [|n IH]; intros a z; simpl.
  - destruct (Nat.leb_spec a z), (Nat.ltb_spec z (a + 0)); simpl; try reflexivity; lia.
  - destruct (Nat.eqb_spec a z).
    + subst. rewrite Nat.leb_refl. destruct (Nat.ltb_spec z (z + S n)); [reflexivity | lia].
    + specialize (IH (S a) z). unfold loc_row in IH. rewrite IH.
      destruct (Nat.leb_spec (S a) z), (Nat.leb_spec a z), (Nat.ltb_spec z (S a + n)),
        (Nat.ltb_spec z (a + S n)); simpl; try reflexivity; lia.
Qed.

Lemma match_list_nonempty {A T : Type} (l : list A) (x y : T) :
  l <> [] -> match l with [] => x | _ :: _ => y end = y.
Proof. destruct l; [congruence | reflexivity]. Qed.

Lemma mem_missing_of df mx z :
  mem_nat z (missing_of df mx) = true <-> (z < mx)%nat /\ ~ In z (input_secs df).
Proof.
  unfold missing_of. rewrite mem_nat_In, filter_In, in_seq, negb_true_iff, mem_nat_false.
  split; intros [H1 H2]; split; auto; lia.
Qed.

Lemma bind_Ok {A B : Type} (a : A) (k : A -> result B) : bind (Ok a) k = k a.
Proof. reflexivity. Qed.

Lemma map_fst_pairs {B : Type} (g : nat -> B) (l : list nat) :
  map fst (map (fun s => (s, g s)) l) = l.
Proof. rewrite map_map. simpl. apply map_id. Qed.

(** When some second is missing, [fill_missing_data] returns the timeline
    re-indexed on [0, max_second): measured seconds keep their value, and a
    missing second [z] of a block of length [L] receives the original value at
    [z - L] when [L <= 300] (NaN if there is none), and stays NaN otherwise. *)
Lemma fill_missing_data_gap_path df mx :
  NoDup (map rec_date_time df) ->
  py_max_nat (input_secs df) = Ok mx ->
  missing_of df mx <> [] ->
  exists out, fill_missing_data df = Ok out /\
    map fst out = seq 0 mx /\
    (forall z v, In z (input_secs df) -> meas_at out z = Some v -> v = sig_of_sec df z) /\
    (forall z, (z < mx)%nat -> ~ In z (input_secs df) ->
       let newcol := newcol_of (missing_of df mx) in
       let L := length (group_index (seq 0 mx) newcol (key_of newcol z)) in
       meas_at out z =
       Some (if Nat.leb L 300 then (if Nat.ltb z L then None else sig_of_sec df (z - L))
             else None)).
Proof.
  intros Hnd Hmx Hne.
  assert (Hsecs : exists secs, num_seconds (map rec_date_time df) = Ok secs /\
                               input_secs df = secs).
  { unfold input_secs in *. destruct (num_seconds (map rec_date_time df)) as [s|e].
    - exists s. auto.
    - discriminate. }
  destruct Hsecs as [secs [Hns Hin]].
  pose proof (num_seconds_spec _ _ Hns) as [H0 [Hnd' _]].
  specialize (Hnd' Hnd).
  rewrite Hin in Hmx.
  set (indexed := combine secs (map row_of_rec df)).
  set (full := map (fun s => (s, reindex_row indexed s)) (seq 0 mx)).
  set (missing := missing_of df mx) in *.
  assert (Hmissing : filter (fun s => negb (mem_nat s secs)) (seq 0 mx) = missing)
    by (unfold missing, missing_of; rewrite Hin; reflexivity).
  assert (Hmxpos : (0 < mx)%nat).
  { destruct mx; [|lia]. exfalso. apply Hne. reflexivity. }
  (* the re-indexed signal is the input signal *)
  assert (Hfull : forall z, (z < mx)%nat -> meas_at full z = Some (sig_of_sec df z)).
  { intros z Hz. unfold meas_at, full. rewrite loc_row_map_seq.
    destruct (Nat.leb_spec 0 z), (Nat.ltb_spec z (0 + mx)); try lia. simpl.
    unfold reindex_row, indexed, sig_of_sec. rewrite loc_row_indexed, Hin.
    destruct (find (fun p => Nat.eqb (fst p) z) (combine secs df)) as [[a r]|];
      reflexivity. }
  assert (Hfull_out : forall z, (mx <= z)%nat -> meas_at full z = None).
  { intros z Hz. unfold meas_at, full. rewrite loc_row_map_seq.
    destruct (Nat.ltb_spec z (0 + mx)); [lia|]. rewrite andb_false_r. reflexivity. }
  (* the time stamps are filled without touching the signal *)
  assert (Hts : exists f, fill_missing_time_stamps full missing = Ok f /\
                  map fst f = seq 0 mx /\ forall z, meas_at f z = meas_at full z).
  { unfold fill_missing_time_stamps. destruct mx as [|mx']; [lia|].
    unfold full at 1. simpl seq. simpl map. cbn [py_min_opt]. rewrite bind_Ok.
    eexists. split; [reflexivity|]. split.
    - rewrite map_fst_loc_set_many. apply map_fst_pairs.
    - intros z. apply meas_at_loc_set_date_time. }
  destruct Hts as [f [Hf [Hflab Hfmeas]]].
  assert (Hnan : forall z, In z (map fst f) -> mem_nat z missing = true ->
                           meas_at f z = Some None).
  { intros z _ Hz. apply mem_missing_of in Hz. destruct Hz as [Hz Hz'].
    rewrite Hfmeas, Hfull by exact Hz. rewrite sig_of_sec_None; [reflexivity|].
    exact Hz'. }
  pose proof (fill_signal_loop_inv f missing Hnan) as [Hlab _].
  set (out := fill_missing_signal_values f missing).
  assert (Hout_lab : map fst out = seq 0 mx) by (rewrite <- Hflab; exact Hlab).
  exists out.
  split; [|split; [exact Hout_lab | split]].
  - unfold fill_missing_data. rewrite Hns, bind_Ok, Hmx, bind_Ok.
    rewrite (nodupb_NoDup _ Hnd'). cbn [negb andb].
    cbv zeta. fold indexed. fold full. rewrite Hmissing.
    rewrite match_list_nonempty by exact Hne.
    rewrite Hf, bind_Ok, bind_Ok. fold out.
    unfold check_if_data_frame_is_valid. cbn [frame_len frame_any_null dense_frame_Frame].
    assert (Hlen : length out = mx)
      by (rewrite <- (length_map fst out), Hout_lab; apply length_seq).
    rewrite Hlen. destruct (Nat.eqb_spec mx 0); [lia|].
    destruct (existsb (fun p => row_has_null (snd p)) out); reflexivity.
  - intros z v Hz Hv.
    assert (Hzm : mem_nat z missing = false).
    { apply not_true_iff_false. intros H. apply mem_missing_of in H.
      destruct H as [_ H]. contradiction. }
    unfold out in Hv. rewrite (fill_signal_measured f missing Hnan z Hzm), Hfmeas in Hv.
    destruct (Nat.lt_ge_cases z mx) as [Hlt|Hge].
    + rewrite Hfull in Hv by exact Hlt. injection Hv as <-. reflexivity.
    + rewrite Hfull_out in Hv by exact Hge. discriminate.
  - intros z Hz Hz' newcol L.
    assert (Hzm : mem_nat z missing = true)
      by (apply mem_missing_of; split; assumption).
    assert (Hzl : In z (map fst f)) by (rewrite Hflab; apply in_seq; lia).
    unfold out. rewrite (fill_signal_missing f missing Hnan z Hzl Hzm).
    f_equal. unfold short_missing_key, copy_value, block_len. rewrite Hflab.
    fold newcol. fold L.
    assert (Hnc : newcol z = (-1000)%Z) by (unfold newcol, newcol_of; rewrite Hzm; reflexivity).
    unfold key_of at 1. simpl snd. rewrite Hnc, Z.eqb_refl, andb_true_l.
    change (5 * 60)%nat with 300%nat.
    destruct (Nat.leb L 300); [|reflexivity].
    unfold loc_get. destruct (Nat.ltb_spec z L), (Z.ltb_spec (Z.of_nat z - Z.of_nat L) 0);
      try lia; [reflexivity|].
    replace (Z.to_nat (Z.of_nat z - Z.of_nat L)) with (z - L)%nat by lia.
    assert (Hs : meas_at f (z - L) = Some (sig_of_sec df (z - L)))
      by (rewrite Hfmeas; apply Hfull; lia).
    unfold meas_at in Hs. destruct (loc_row f (z - L)); [|discriminate].
    injection Hs as Hs. exact Hs.
Qed.

(** A maximal run [p, p + L) of missing seconds is one block of the code. *)
Lemma fill_missing_data_run df p L :
  NoDup (map rec_date_time df) -> (0 < L)%nat ->
  (forall i, (p <= i < p + L)%nat -> ~ In i (input_secs df)) ->
  In (p - 1) (input_secs df) -> In (p + L) (input_secs df) ->
  (1 <= p)%nat /\
  exists out, fill_missing_data df = Ok out /\
    (forall z v, In z (input_secs df) -> meas_at out z = Some v -> v = sig_of_sec df z) /\
    (forall k, (k < L)%nat ->
       meas_at out (p + k) =
       Some (if Nat.leb L 300
             then (if Nat.ltb (p + k) L then None else sig_of_sec df (p + k - L))
             else None)).
Proof.
  intros Hnd HL Hrun Hleft Hright.
  assert (Hp : (1 <= p)%nat).
  { destruct p; [|lia]. exfalso. apply (Hrun 0%nat); [lia | exact Hleft]. }
  split; [exact Hp|].
  destruct (py_max_nat (input_secs df)) as [mx|e] eqn:Hmx;
    [| destruct (input_secs df); [contradiction | discriminate]].
  pose proof (py_max_nat_spec _ _ Hmx) as [_ Hle].
  assert (HpL : (p + L <= mx)%nat) by (apply Hle; exact Hright).
  assert (Hmiss : forall i, (p <= i < p + L)%nat -> mem_nat i (missing_of df mx) = true)
    by (intros i Hi; apply mem_missing_of; split; [lia | apply Hrun; exact Hi]).
  assert (Hne : missing_of df mx <> []).
  { intros E. specialize (Hmiss p ltac:(lia)). rewrite E in Hmiss. discriminate. }
  destruct (fill_missing_data_gap_path df mx Hnd Hmx Hne)
    as [out [Hout [_ [Hmeas Hgap]]]].
  exists out. split; [exact Hout | split; [exact Hmeas|]].
  intros k Hk. rewrite (Hgap (p + k)) by (try apply Hrun; lia). cbv zeta.
  set (newcol := newcol_of (missing_of df mx)).
  assert (Hnot : forall i, In i (input_secs df) -> newcol i <> (-1000)%Z).
  { intros i Hi. unfold newcol, newcol_of.
    destruct (mem_nat i (missing_of df mx)) eqn:E; [|discriminate].
    apply mem_missing_of in E. destruct E as [_ E]. contradiction. }
  rewrite (group_index_run newcol mx p L (-1000)%Z (p + k)); try lia.
  - reflexivity.
  - intros m Hm. unfold newcol, newcol_of. rewrite Hmiss by exact Hm. reflexivity.
  - apply Hnot. exact Hleft.
  - intros _. apply Hnot. exact Hright.
Qed.

Lemma range_not_in (s : list nat) p L :
  forallb (fun i => negb (mem_nat i s)) (seq p L) = true ->
  forall i, (p <= i < p + L)%nat -> ~ In i s.
Proof.
  intros H i Hi. rewrite forallb_forall in H.
  assert (Hs : In i (seq p L)) by (apply in_seq; lia).
  specialize (H i Hs). apply negb_true_iff, mem_nat_false in H. exact H.
Qed.

Lemma range_in (s : list nat) a n :
  forallb (fun i => mem_nat i s) (seq a n) = true ->
  forall i, (a <= i < a + n)%nat -> In i s.
Proof.
  intros H i Hi. rewrite forallb_forall in H.
  apply mem_nat_In, H, in_seq. lia.
Qed.

Lemma nodupb_Z_NoDup (l : list Z) : nodupb_Z l = true -> NoDup l.
Proof.
  induction l as [|x t IH]; simpl; intros H; [constructor|].
  apply andb_true_iff in H. destruct H as [H1 H2]. constructor; [|exact (IH H2)].
  intros Hx. apply negb_true_iff in H1.
  assert (E : existsb (Z.eqb x) t = true)
    by (apply existsb_exists; exists x; split; [exact Hx | apply Z.eqb_refl]).
  congruence.
Qed.

(** * The gap filler *)

(** C1: the output of [fill_missing_data] does not always cover the seconds
    [0 .. max_second]. On the path with missing seconds the labels are
    [range(0, max_second)], which leaves out [max_second]: for records at
    seconds 0 and 2 the output has the labels 0 and 1 only. On the fast path
    (nothing missing in [range(0, max_second)]) the input frame is returned
    as is and [max_second] is kept: records at seconds 0 and 1 give 0 and 1. *)
Theorem fill_missing_data_drops_max_second :
  match fill_missing_data (ex_recs [(0, 5); (2, 6)]%Z) with
  | Ok out => input_secs (ex_recs [(0, 5); (2, 6)]%Z) = [0; 2]%nat /\
              map fst out = [0; 1]%nat
  | Err _ => False
  end /\
  match fill_missing_data (ex_recs [(0, 5); (1, 6)]%Z) with
  | Ok out => input_secs (ex_recs [(0, 5); (1, 6)]%Z) = [0; 1]%nat /\
              map fst out = [0; 1]%nat
  | Err _ => False
  end.
Proof.
  vm_compute. repeat split.
Qed.

(** C2: a missing block [p, p + L) with [L <= 300], whose [L] preceding
    seconds [p - L, p) were all measured, is filled position by position
    with that preceding block: the row [p + k] gets the value measured at
    second [p - L + k], for every [k < L]. *)
Theorem fill_short_block_copies_preceding_block df p L :
  NoDup (map rec_date_time df) ->
  (0 < L <= 300)%nat ->
  (forall i, (p <= i < p + L)%nat -> ~ In i (input_secs df)) ->
  In (p + L) (input_secs df) ->
  (L <= p)%nat ->
  (forall i, (p - L <= i < p)%nat -> In i (input_secs df)) ->
  exists out, fill_missing_data df = Ok out /\
    forall k, (k < L)%nat ->
      sig_of_sec df (p - L + k) <> None /\
      meas_at out (p + k) = Some (sig_of_sec df (p - L + k)).
Proof.
  intros Hnd HL Hrun Hright HLp Hbefore.
  destruct (fill_missing_data_run df p L Hnd ltac:(lia) Hrun
              ltac:(apply Hbefore; lia) Hright) as [_ [out [Hout [_ Hk]]]].
  exists out. split; [exact Hout|].
  intros k Hlt. split.
  - apply sig_of_sec_Some, Hbefore. lia.
  - rewrite Hk by exact Hlt.
    destruct (Nat.leb_spec L 300); [|lia].
    destruct (Nat.ltb_spec (p + k) L); [lia|].
    replace (p + k - L)%nat with (p - L + k)%nat by lia. reflexivity.
Qed.

Lemma fill_short_block_copies_preceding_block_witness :
  NoDup (map rec_date_time (ex_recs [(0, 10); (1, 11); (2, 12); (5, 15)]%Z)) /\
  (0 < 2 <= 300)%nat /\
  (forall i, (3 <= i < 3 + 2)%nat ->
     ~ In i (input_secs (ex_recs [(0, 10); (1, 11); (2, 12); (5, 15)]%Z))) /\
  In (3 + 2)%nat (input_secs (ex_recs [(0, 10); (1, 11); (2, 12); (5, 15)]%Z)) /\
  (2 <= 3)%nat /\
  (forall i, (3 - 2 <= i < 3)%nat ->
     In i (input_secs (ex_recs [(0, 10); (1, 11); (2, 12); (5, 15)]%Z))) /\
  exists out, fill_missing_data (ex_recs [(0, 10); (1, 11); (2, 12); (5, 15)]%Z) = Ok out /\
    forall k, (k < 2)%nat ->
      sig_of_sec (ex_recs [(0, 10); (1, 11); (2, 12); (5, 15)]%Z) (3 - 2 + k) <> None /\
      meas_at out (3 + k) =
        Some (sig_of_sec (ex_recs [(0, 10); (1, 11); (2, 12); (5, 15)]%Z) (3 - 2 + k)).
Proof.
  assert (Hnd : NoDup (map rec_date_time (ex_recs [(0, 10); (1, 11); (2, 12); (5, 15)]%Z)))
    by (apply nodupb_Z_NoDup; vm_compute; reflexivity).
  assert (Hrun : forall i, (3 <= i < 3 + 2)%nat ->
     ~ In i (input_secs (ex_recs [(0, 10); (1, 11); (2, 12); (5, 15)]%Z)))
    by (apply range_not_in; vm_compute; reflexivity).
  assert (Hright : In (3 + 2)%nat (input_secs (ex_recs [(0, 10); (1, 11); (2, 12); (5, 15)]%Z)))
    by (vm_compute; tauto).
  assert (Hbefore : forall i, (3 - 2 <= i < 3)%nat ->
     In i (input_secs (ex_recs [(0, 10); (1, 11); (2, 12); (5, 15)]%Z))).
  { intros i Hi. apply (range_in _ 1 2); [vm_compute; reflexivity | simpl in Hi; lia]. }
  split; [exact Hnd|]. split; [lia|]. split; [exact Hrun|]. split; [exact Hright|].
  split; [lia|]. split; [exact Hbefore|].
  exact (fill_short_block_copies_preceding_block _ 3 2 Hnd ltac:(lia) Hrun Hright
           ltac:(lia) Hbefore).
Defined.

(** C4: a maximal missing block [p, p + L) with [L > 300] keeps NaN in
    every row (the code has no [source] column: unknown is NaN); the
    measured rows keep their values; the loop iteration of a long missing
    block leaves the frame and the copy column unchanged; and
    [fill_missing_data] returns the frame, NaNs included, without raising. *)
Theorem fill_long_block_left_unset df p L :
  NoDup (map rec_date_time df) ->
  (300 < L)%nat ->
  (forall i, (p <= i < p + L)%nat -> ~ In i (input_secs df)) ->
  In (p - 1) (input_secs df) -> In (p + L) (input_secs df) ->
  exists out, fill_missing_data df = Ok out /\
    (forall i, (p <= i < p + L)%nat -> meas_at out i = Some None) /\
    (forall z v, In z (input_secs df) -> meas_at out z = Some v -> v = sig_of_sec df z) /\
    (forall orig missing_secs labels newcol st k,
       snd k = (-1000)%Z -> (300 < length (group_index labels newcol k))%nat ->
       fill_step orig missing_secs labels newcol st k = st).
Proof.
  intros Hnd HL Hrun Hleft Hright.
  destruct (fill_missing_data_run df p L Hnd ltac:(lia) Hrun Hleft Hright)
    as [_ [out [Hout [Hmeas Hk]]]].
  exists out. split; [exact Hout|]. split; [|split; [exact Hmeas|]].
  - intros i Hi. replace i with (p + (i - p))%nat by lia.
    rewrite Hk by lia. destruct (Nat.leb_spec L 300); [lia | reflexivity].
  - intros orig missing_secs labels newcol [full copy] k Hk1 Hk2.
    unfold fill_step. rewrite Hk1, Z.eqb_refl.
    destruct (Nat.leb_spec (length (group_index labels newcol k)) (5 * 60));
      [lia | reflexivity].
Qed.

Lemma fill_long_block_left_unset_witness :
  NoDup (map rec_date_time (ex_recs [(0, 1); (302, 2)]%Z)) /\
  (300 < 301)%nat /\
  (forall i, (1 <= i < 1 + 301)%nat -> ~ In i (input_secs (ex_recs [(0, 1); (302, 2)]%Z))) /\
  In (1 - 1)%nat (input_secs (ex_recs [(0, 1); (302, 2)]%Z)) /\
  In (1 + 301)%nat (input_secs (ex_recs [(0, 1); (302, 2)]%Z)) /\
  exists out, fill_missing_data (ex_recs [(0, 1); (302, 2)]%Z) = Ok out /\
    (forall i, (1 <= i < 1 + 301)%nat -> meas_at out i = Some None) /\
    (forall z v, In z (input_secs (ex_recs [(0, 1); (302, 2)]%Z)) ->
       meas_at out z = Some v -> v = sig_of_sec (ex_recs [(0, 1); (302, 2)]%Z) z) /\
    (forall orig missing_secs labels newcol st k,
       snd k = (-1000)%Z -> (300 < length (group_index labels newcol k))%nat ->
       fill_step orig missing_secs labels newcol st k = st).
Proof.
  assert (Hnd : NoDup (map rec_date_time (ex_recs [(0, 1); (302, 2)]%Z)))
    by (apply nodupb_Z_NoDup; vm_compute; reflexivity).
  assert (Hrun : forall i, (1 <= i < 1 + 301)%nat ->
            ~ In i (input_secs (ex_recs [(0, 1); (302, 2)]%Z)))
    by (apply range_not_in; vm_compute; reflexivity).
  assert (Hl : In (1 - 1)%nat (input_secs (ex_recs [(0, 1); (302, 2)]%Z)))
    by (vm_compute; tauto).
  assert (Hr : In (1 + 301)%nat (input_secs (ex_recs [(0, 1); (302, 2)]%Z)))
    by (vm_compute; tauto).
  split; [exact Hnd|]. split; [lia|]. split; [exact Hrun|].
  split; [exact Hl|]. split; [exact Hr|].
  exact (fill_long_block_left_unset _ 1 301 Hnd ltac:(lia) Hrun Hl Hr).
Defined.

(** C5 as stated fails: a missing block that is not preceded by a measured
    block of its length is not always left unknown. With records at seconds
    0, 3 and 4, the block [1, 2] has length 2; its row 2 gets the value
    measured at second 0 (the copy source [2 - 2]). *)
Lemma fill_uncovered_block_counterexample :
  match fill_missing_data (ex_recs [(0, 7); (3, 8); (4, 9)]%Z) with
  | Ok out => meas_at out 1 = Some None /\ meas_at out 2 = Some (Some 7%Z)
  | Err _ => False
  end.
Proof.
  vm_compute. split; reflexivity.
Qed.

(** C5, amended: second 0 is always a measured second, so no missing block
    starts the timeline, and filling completes without raising; in a missing
    block [p, p + L) with [L <= 300], the row [p + k] gets the value of
    second [p + k - L] if that second exists and was measured, and stays
    unset otherwise (in particular when [p + k < L]). *)
Theorem fill_short_block_sources df p L :
  NoDup (map rec_date_time df) ->
  (0 < L <= 300)%nat ->
  (forall i, (p <= i < p + L)%nat -> ~ In i (input_secs df)) ->
  In (p - 1) (input_secs df) -> In (p + L) (input_secs df) ->
  In 0%nat (input_secs df) /\ (1 <= p)%nat /\
  exists out, fill_missing_data df = Ok out /\
    forall k, (k < L)%nat ->
      meas_at out (p + k) =
      Some (if Nat.ltb (p + k) L then None else sig_of_sec df (p + k - L)).
Proof.
  intros Hnd HL Hrun Hleft Hright.
  destruct (fill_missing_data_run df p L Hnd ltac:(lia) Hrun Hleft Hright)
    as [Hp [out [Hout [_ Hk]]]].
  split.
  - unfold input_secs in *.
    destruct (num_seconds (map rec_date_time df)) as [s|e] eqn:Hs; [|contradiction].
    exact (proj1 (num_seconds_spec _ _ Hs)).
  - split; [exact Hp|]. exists out. split; [exact Hout|].
    intros k Hlt. rewrite Hk by exact Hlt.
    destruct (Nat.leb_spec L 300); [reflexivity | lia].
Qed.

Lemma fill_short_block_sources_witness :
  NoDup (map rec_date_time (ex_recs [(0, 7); (3, 8); (4, 9)]%Z)) /\
  (0 < 2 <= 300)%nat /\
  (forall i, (1 <= i < 1 + 2)%nat -> ~ In i (input_secs (ex_recs [(0, 7); (3, 8); (4, 9)]%Z))) /\
  In (1 - 1)%nat (input_secs (ex_recs [(0, 7); (3, 8); (4, 9)]%Z)) /\
  In (1 + 2)%nat (input_secs (ex_recs [(0, 7); (3, 8); (4, 9)]%Z)) /\
  In 0%nat (input_secs (ex_recs [(0, 7); (3, 8); (4, 9)]%Z)) /\ (1 <= 1)%nat /\
  exists out, fill_missing_data (ex_recs [(0, 7); (3, 8); (4, 9)]%Z) = Ok out /\
    forall k, (k < 2)%nat ->
      meas_at out (1 + k) =
      Some (if Nat.ltb (1 + k) 2 then None
            else sig_of_sec (ex_recs [(0, 7); (3, 8); (4, 9)]%Z) (1 + k - 2)).
Proof.
  assert (Hnd : NoDup (map rec_date_time (ex_recs [(0, 7); (3, 8); (4, 9)]%Z)))
    by (apply nodupb_Z_NoDup; vm_compute; reflexivity).
  assert (Hrun : forall i, (1 <= i < 1 + 2)%nat ->
            ~ In i (input_secs (ex_recs [(0, 7); (3, 8); (4, 9)]%Z)))
    by (apply range_not_in; vm_compute; reflexivity).
  assert (Hl : In (1 - 1)%nat (input_secs (ex_recs [(0, 7); (3, 8); (4, 9)]%Z)))
    by (vm_compute; tauto).
  assert (Hr : In (1 + 2)%nat (input_secs (ex_recs [(0, 7); (3, 8); (4, 9)]%Z)))
    by (vm_compute; tauto).
  split; [exact Hnd|]. split; [lia|]. split; [exact Hrun|].
  split; [exact Hl|]. split; [exact Hr|].
  exact (fill_short_block_sources _ 1 2 Hnd ltac:(lia) Hrun Hl Hr).
Defined.

(** * Loading the batches *)

Lemma list_string_eqb_eq (a b : list string) : list_string_eqb a b = true -> a = b.
Proof.
  revert b. induction a as [|x a IH]; intros [|y b]; simpl; try discriminate; [reflexivity|].
  intros H. apply andb_true_iff in H. destruct H as [H1 H2].
  apply String.eqb_eq in H1. subst y. f_equal. apply IH. exact H2.
Qed.

Lemma collect_file_dfs_spec files :
  match find (fun f => batch_fatal (snd f)) files with
  | Some (_, d) => collect_file_dfs files =
                   Err (match d with None => FailedToReadCSVError
                                   | Some _ => DataFileIsDefectiveError end)
  | None => collect_file_dfs files = Ok (kept_frames files, warned_files files)
  end.
Proof.
  induction files as [|[n [c|]] rest IH]; [reflexivity| |reflexivity].
  cbn [find snd batch_fatal collect_file_dfs].
  unfold check_file_df_content, check_if_data_frame_is_valid. cbn [frame_len frame_any_null csv_frame_Frame].
  destruct (Nat.eqb (length (cells c)) 0); [reflexivity|].
  destruct (existsb _ (cells c)); [reflexivity|]. cbn [orb].
  destruct (find (fun f => batch_fatal (snd f)) rest) as [[n' d']|] eqn:Hf;
    rewrite IH; cbn [bind].
  - destruct (list_string_eqb (columns c) expected_columns); reflexivity.
  - unfold kept_frames, warned_files, right_columns. cbn [flat_map filter snd].
    destruct (list_string_eqb (columns c) expected_columns); reflexivity.
Qed.

Lemma kept_frames_valid files :
  (forall f, In f files -> batch_fatal (snd f) = false) ->
  forall c, In c (kept_frames files) ->
    length (cells c) <> 0%nat /\ frame_any_null c = false /\
    columns c = expected_columns.
Proof.
  intros Hall c Hc. unfold kept_frames in Hc. apply in_flat_map in Hc.
  destruct Hc as [[n [d|]] [Hin Hd]]; [|destruct Hd].
  cbn [snd] in Hd. unfold right_columns in Hd.
  destruct (list_string_eqb (columns d) expected_columns) eqn:Ec; [|destruct Hd].
  destruct Hd as [<-|[]]. specialize (Hall _ Hin). cbn [snd batch_fatal] in Hall.
  apply orb_false_iff in Hall. destruct Hall as [H1 H2].
  split; [apply Nat.eqb_neq; exact H1|]. split; [exact H2|].
  apply list_string_eqb_eq. exact Ec.
Qed.

(** C7 as stated fails. A batch that is empty, unread or has a NaN is not
    dropped: [check_file_df_content] turns it into [DataFileIsDefectiveError]
    or [FailedToReadCSVError], which [read_data] does not catch, even when
    another batch is good. And when every batch is dropped, [pd.concat] of
    the empty list raises [ValueError] before the [Empty] check. *)
Lemma read_data_batches_counterexample :
  read_data_batches
    [("a.csv"%string,
      Some (one_row_batch expected_columns
              [Some "S"%string; Some "2017-05-25T23:59:59Z"%string;
               Some "5"%string; Some "ok"%string]));
     ("b.csv"%string,
      Some (one_row_batch expected_columns
              [Some "S"%string; Some "2017-05-26T00:00:00Z"%string;
               None; Some "ok"%string]))]
  = Err DataFileIsDefectiveError /\
  read_data_batches
    [("c.csv"%string,
      Some (one_row_batch ["name"; "time"; "signal"; "status"]%string
              [Some "S"%string; Some "2017-05-25T23:59:59Z"%string;
               Some "5"%string; Some "ok"%string]))]
  = Err ValueError.
Proof.
  split; vm_compute; reflexivity.
Qed.

(** C7, amended: the first batch, in file order, that is unread, empty or
    has a NaN makes the load fail ([FailedToReadCSVError] for an unread
    batch, [DataFileIsDefectiveError] otherwise). If there is none, the
    batches with the wrong column list are dropped and reported, the run
    goes on, and the merged frame is made of the cells of the kept batches,
    in order; if no batch is kept, [pd.concat] raises [ValueError]. *)
Theorem read_data_batches_spec files :
  match find (fun f => batch_fatal (snd f)) files with
  | Some (_, d) => read_data_batches files =
                   Err (match d with None => FailedToReadCSVError
                                   | Some _ => DataFileIsDefectiveError end)
  | None =>
      (kept_frames files = [] -> read_data_batches files = Err ValueError) /\
      (kept_frames files <> [] ->
       exists m, read_data_batches files = Ok (m, warned_files files) /\
                 columns m = expected_columns /\
                 cells m = flat_map cells (kept_frames files))
  end.
Proof.
  pose proof (collect_file_dfs_spec files) as Hc.
  unfold read_data_batches.
  destruct (find (fun f => batch_fatal (snd f)) files) as [[n d]|] eqn:Hf.
  - rewrite Hc. reflexivity.
  - rewrite Hc. cbn [bind fst snd].
    pose proof (kept_frames_valid files
                  (fun f Hin => find_none _ _ Hf f Hin)) as Hv.
    split.
    + intros E. rewrite E. reflexivity.
    + intros Hne. destruct (kept_frames files) as [|c0 cs] eqn:Ek; [contradiction|].
      cbn [pd_concat bind].
      destruct (Hv c0 (or_introl eq_refl)) as [Hl0 [_ Hcol0]].
      unfold check_if_data_frame_is_valid. cbn [frame_len frame_any_null csv_frame_Frame cells].
      destruct (Nat.eqb_spec (length (flat_map cells (c0 :: cs))) 0) as [E|_].
      { exfalso. cbn [flat_map] in E. rewrite length_app in E. lia. }
      destruct (existsb _ (flat_map cells (c0 :: cs))) eqn:En.
      { exfalso. apply existsb_exists in En. destruct En as [r [Hr Hnull]].
        apply in_flat_map in Hr. destruct Hr as [c [Hc' Hrc]].
        destruct (Hv c Hc') as [_ [Hnn _]]. cbn [frame_any_null csv_frame_Frame] in Hnn.
        assert (Ex : existsb (existsb (fun x => match x with None => true | Some _ => false end))
                       (cells c) = true) by (apply existsb_exists; exists r; split; assumption).
        congruence. }
      cbn [bind]. eexists. split; [reflexivity|]. split; [exact Hcol0 | reflexivity].
Qed.

(** * Parsing the timestamps *)

Section Parsing.

Variable parse_datetime : string -> option Z.

Lemma pd_to_datetime_unparsable (l : list string) (s : string) :
  In s l -> parse_datetime s = None -> pd_to_datetime parse_datetime l = Err ValueError.
Proof.
  induction l as [|a t IH]; intros Hin Hs; [destruct Hin|].
  cbn [pd_to_datetime]. destruct Hin as [<-|Hin].
  - rewrite Hs. reflexivity.
  - destruct (parse_datetime a); [|reflexivity]. rewrite (IH Hin Hs). reflexivity.
Qed.

(** C8: if one of the timestamp strings cannot be parsed (after the [Z] and
    [T] replacements), [convert_to_local_time] raises
    [DateTimeColumnIsDefectiveError]: no row is skipped and no series is
    returned. *)
Theorem convert_to_local_time_rejects_unparsable (time_stamps : list string) (s : string) :
  In s time_stamps ->
  parse_datetime (py_replace_char "T" " " (py_replace_char "Z" "" s)) = None ->
  convert_to_local_time parse_datetime time_stamps = Err DateTimeColumnIsDefectiveError.
Proof.
  intros Hin Hs. unfold convert_to_local_time.
  rewrite (pd_to_datetime_unparsable _ _ (in_map _ _ _ Hin) Hs). reflexivity.
Qed.

End Parsing.

Lemma convert_to_local_time_rejects_unparsable_witness :
  In "garbage"%string ["2017-05-25T23:59:59Z"; "garbage"]%string /\
  parse_iso_utc (py_replace_char "T" " " (py_replace_char "Z" "" "garbage")) = None /\
  convert_to_local_time parse_iso_utc ["2017-05-25T23:59:59Z"; "garbage"]%string
  = Err DateTimeColumnIsDefectiveError.
Proof.
  assert (Hin : In "garbage"%string ["2017-05-25T23:59:59Z"; "garbage"]%string)
    by (right; left; reflexivity).
  assert (Hp : parse_iso_utc (py_replace_char "T" " " (py_replace_char "Z" "" "garbage")) = None)
    by (vm_compute; reflexivity).
  split; [exact Hin|]. split; [exact Hp|].
  exact (convert_to_local_time_rejects_unparsable parse_iso_utc _ _ Hin Hp).
Defined.

(** * Day partition *)

Lemma loop_fuel_bound (b e : Z) : (e - b <= 86400 * Z.of_nat (loop_fuel b e))%Z.
Proof.
  unfold loop_fuel. rewrite Nat2Z.inj_succ.
  pose proof (Z.div_mod (e - b) 86400 ltac:(lia)) as Hd.
  pose proof (Z.mod_pos_bound (e - b) 86400 ltac:(lia)) as Hm.
  set (q := ((e - b) / 86400)%Z) in *. set (r := ((e - b) mod 86400)%Z) in *.
  destruct (Z.le_gt_cases 0 q).
  - rewrite Z2Nat.id by lia. lia.
  - replace (Z.to_nat q) with 0%nat by lia. lia.
Qed.

Lemma collect_onsets_spec fuel : forall b e acc,
  (e - b <= 86400 * Z.of_nat fuel)%Z ->
  exists m,
    collect_onsets fuel b e acc =
      (acc ++ map (fun i => b + 86400 * Z.of_nat i)%Z (seq 0 m),
       (b + 86400 * Z.of_nat m)%Z) /\
    (forall i, (i < m)%nat -> (b + 86400 * Z.of_nat i < e)%Z) /\
    (e <= b + 86400 * Z.of_nat m)%Z.
Proof.
  induction fuel as [|f IH]; intros b e acc Hb.
  - exists 0%nat. cbn [collect_onsets seq map]. rewrite app_nil_r.
    split; [f_equal; lia|]. split; [intros; lia | lia].
  - cbn [collect_onsets]. destruct (Z.ltb_spec b e) as [Hlt|Hge].
    + destruct (IH (b + 86400)%Z e (acc ++ [b])) as [m [Hc [Hi He]]]; [lia|].
      exists (S m). rewrite Hc.
      assert (Hmap : map (fun i => b + 86400 * Z.of_nat i)%Z (seq 0 (S m)) =
                     b :: map (fun i => b + 86400 + 86400 * Z.of_nat i)%Z (seq 0 m)).
      { cbn [seq map]. rewrite <- seq_shift, map_map. f_equal; [lia|].
        apply map_ext. intros a. lia. }
      split; [rewrite Hmap, <- app_assoc; f_equal; lia|].
      split; [|lia].
      intros [|i] Hi'; [lia|]. specialize (Hi i ltac:(lia)). lia.
    + exists 0%nat. cbn [seq map]. rewrite app_nil_r.
      split; [f_equal; lia|]. split; [intros; lia | lia].
Qed.

Section Onsets.

Variable to_local : Z -> Z.
Variable localize : Z -> Z.

(** C9: the day onsets start with the first timestamp [t0]; the first noon
    boundary is noon of the local date of [t0] if its local hour is before
    12, and noon of the next local date otherwise, localized to the zone;
    the next onsets are that boundary plus 24 hours, plus 48 hours, ..., up
    to and excluding the first one that is not before the last timestamp
    [tend], which is the final [next_day_onset]. *)
Theorem compute_day_onsets_spec (date_time : list (nat * Z)) (t0 tend : Z) :
  loc_label date_time 0 = Ok t0 ->
  loc_label date_time (length date_time - 1) = Ok tend ->
  let first_boundary :=
    if Z.ltb (local_hour to_local t0) 12
    then localize (noon_of_date (local_date to_local t0))
    else localize (noon_of_date (local_date to_local t0 + 1)) in
  exists m,
    compute_day_onsets to_local localize date_time =
      Ok (t0 :: map (fun i => first_boundary + 86400 * Z.of_nat i)%Z (seq 0 m),
          (first_boundary + 86400 * Z.of_nat m)%Z) /\
    (forall i, (i < m)%nat -> (first_boundary + 86400 * Z.of_nat i < tend)%Z) /\
    (tend <= first_boundary + 86400 * Z.of_nat m)%Z.
Proof.
  intros H0 H1 first_boundary.
  unfold compute_day_onsets. rewrite H0, H1. cbn [bind].
  assert (Hb : (if Z.ltb (local_hour to_local t0) 12
                then localize (noon_of_date (local_date to_local t0))
                else localize (noon_of_date (local_date to_local t0) + 86400))
               = first_boundary).
  { unfold first_boundary. destruct (Z.ltb _ 12); [reflexivity|].
    f_equal. unfold noon_of_date. lia. }
  rewrite Hb.
  destruct (collect_onsets_spec (loop_fuel first_boundary tend) first_boundary tend [t0]
              (loop_fuel_bound _ _)) as [m [Hc Hr]].
  exists m. rewrite Hc. split; [reflexivity | exact Hr].
Qed.

End Onsets.

Lemma compute_day_onsets_spec_witness :
  loc_label (dense_times 1495738798 3) 0 = Ok 1495738798%Z /\
  loc_label (dense_times 1495738798 3) (length (dense_times 1495738798 3) - 1)
    = Ok 1495738800%Z /\
  let first_boundary :=
    if Z.ltb (local_hour pdt_to_local 1495738798) 12
    then pdt_localize (noon_of_date (local_date pdt_to_local 1495738798))
    else pdt_localize (noon_of_date (local_date pdt_to_local 1495738798 + 1)) in
  exists m,
    compute_day_onsets pdt_to_local pdt_localize (dense_times 1495738798 3) =
      Ok (1495738798%Z :: map (fun i => first_boundary + 86400 * Z.of_nat i)%Z (seq 0 m),
          (first_boundary + 86400 * Z.of_nat m)%Z) /\
    (forall i, (i < m)%nat -> (first_boundary + 86400 * Z.of_nat i < 1495738800)%Z) /\
    (1495738800 <= first_boundary + 86400 * Z.of_nat m)%Z.
Proof.
  assert (H0 : loc_label (dense_times 1495738798 3) 0 = Ok 1495738798%Z)
    by (vm_compute; reflexivity).
  assert (H1 : loc_label (dense_times 1495738798 3) (length (dense_times 1495738798 3) - 1)
               = Ok 1495738800%Z)
    by (vm_compute; reflexivity).
  split; [exact H0|]. split; [exact H1|].
  exact (compute_day_onsets_spec pdt_to_local pdt_localize _ _ _ H0 H1).
Defined.

(** C3 fails: a record lying exactly on the last noon boundary gets no day
    number. The loop stops when [next_day_onset] reaches [end_of_time], and
    the last day covers [day_onset <= t < next_day_onset], so the last
    record is outside it. In US/Pacific summer time, three consecutive
    seconds 11:59:58, 11:59:59 and 12:00:00 on 2017-05-25 get the day
    numbers 1, 1 and NaN. *)
Theorem divide_leaves_boundary_record_unassigned :
  pdt_to_local 1495738800 = (days_from_civil 2017 5 25 * 86400 + 12 * 3600)%Z /\
  map snd (dense_times 1495738798 3) = [1495738798; 1495738799; 1495738800]%Z /\
  divide_to_24_hour_periods pdt_to_local pdt_localize (dense_times 1495738798 3)
    = Ok [Some 1; Some 1; None]%nat.
Proof.
  vm_compute. repeat split.
Qed.

(** * The subject number check *)

Lemma digits_of_nonempty fuel : forall n acc,
  (String.length acc <= String.length (digits_of fuel n acc))%nat.
Proof.
  induction fuel as [|f IH]; intros n acc; cbn [digits_of]; [lia|].
  destruct (Z.ltb n 10); [cbn [String.length]; lia|].
  etransitivity; [|apply IH]. cbn [String.length]. lia.
Qed.

Lemma py_str_int_nonempty (z : Z) : String.length (py_str_int z) <> 0%nat.
Proof.
  unfold py_str_int.
  assert (H : (0 < String.length (digits_of (S (Z.to_nat (Z.log2 (Z.abs z))))
                                             (Z.abs z) EmptyString))%nat).
  { cbn [digits_of]. destruct (Z.ltb (Z.abs z) 10); [cbn [String.length]; lia|].
    eapply Nat.lt_le_trans; [|apply digits_of_nonempty]. cbn [String.length]. lia. }
  destruct (Z.ltb z 0); cbn [String.length]; lia.
Qed.

Lemma string_length_append (a b : string) :
  String.length (String.append a b) = (String.length a + String.length b)%nat.
Proof.
  induction a as [|c a IH]; cbn [String.append String.length]; [reflexivity | lia].
Qed.

Lemma substring_full (s : string) : substring 0 (String.length s) s = s.
Proof.
  induction s as [|c s IH]; cbn [substring String.length]; [reflexivity | rewrite IH; reflexivity].
Qed.

Lemma substring_suffix (pre s : string) :
  substring (String.length pre) (String.length s) (String.append pre s) = s.
Proof.
  induction pre as [|c pre IH]; cbn [String.append String.length substring];
    [apply substring_full | exact IH].
Qed.

(** C10: the subject number check accepts every path that ends with the
    decimal digits of [subject_num], whatever precedes them; for instance
    subject 2 is accepted with the folder [../data/Subject12]. *)
Theorem subject_num_check_accepts_suffix :
  (forall (subject_num : Z) (pre : string),
     check_if_subject_num_matches_subject_files_path subject_num
       (String.append pre (py_str_int subject_num)) = Ok tt) /\
  check_if_subject_num_matches_subject_files_path 2 "../data/Subject12" = Ok tt.
Proof.
  split; [|vm_compute; reflexivity].
  intros n pre. unfold check_if_subject_num_matches_subject_files_path, py_neg_slice.
  pose proof (py_str_int_nonempty n) as Hne.
  destruct (Nat.eqb_spec (String.length (py_str_int n)) 0); [contradiction|].
  rewrite string_length_append.
  replace (String.length pre + String.length (py_str_int n) - String.length (py_str_int n))%nat
    with (String.length pre) by lia.
  rewrite substring_suffix, String.eqb_refl. reflexivity.
Qed.

(** * Further properties of the loaders and checks *)

Lemma list_string_eqb_refl (a : list string) : list_string_eqb a a = true.
Proof.
  induction a as [|x a IH]; simpl; [reflexivity|]. rewrite String.eqb_refl. exact IH.
Qed.

(** [check_file_df_content] on a frame that was read: it passes exactly
    when the frame has a row, no NaN, and the four expected column names in
    the expected order; it reports the file as incorrect (the only outcome
    [read_data] recovers from) exactly when the frame has a row and no NaN
    but another column list, so a batch in another column order is
    skipped; a frame with no row or with a NaN is defective whatever its
    columns; an unread file fails to read. *)
Theorem check_file_df_content_outcomes (d : csv_frame) :
  (check_file_df_content (Some d) = Ok tt <->
     cells d <> [] /\ frame_any_null d = false /\ columns d = expected_columns) /\
  (check_file_df_content (Some d) = Err FileIsNotCorrectDataFileError <->
     cells d <> [] /\ frame_any_null d = false /\ columns d <> expected_columns) /\
  (cells d = [] \/ frame_any_null d = true ->
     check_file_df_content (Some d) = Err DataFileIsDefectiveError) /\
  check_file_df_content None = Err FailedToReadCSVError.
Proof.
  unfold check_file_df_content, check_if_data_frame_is_valid.
  cbn [frame_len frame_any_null csv_frame_Frame].
  destruct (cells d) as [|r rs] eqn:Ec; cbn [length Nat.eqb].
  - split; [split; [discriminate | intros [H _]; contradiction]|].
    split; [split; [discriminate | intros [H _]; contradiction]|].
    split; [intros _; reflexivity | reflexivity].
  - destruct (existsb _ (r :: rs)) eqn:En.
    + split; [split; [discriminate | intros [_ [H _]]; discriminate]|].
      split; [split; [discriminate | intros [_ [H _]]; discriminate]|].
      split; [intros _; reflexivity | reflexivity].
    + destruct (list_string_eqb (columns d) expected_columns) eqn:Eq.
      * apply list_string_eqb_eq in Eq.
        split; [split; [intros _; split; [discriminate | split; [reflexivity | exact Eq]]
                       | intros _; reflexivity]|].
        split; [split; [discriminate | intros [_ [_ H]]; contradiction]|].
        split; [intros [H|H]; discriminate | reflexivity].
      * assert (Hne : columns d <> expected_columns)
          by (intros E; rewrite E, list_string_eqb_refl in Eq; discriminate).
        split; [split; [discriminate | intros [_ [_ H]]; contradiction]|].
        split; [split; [intros _; split; [discriminate | split; [reflexivity | exact Hne]]
                       | intros _; reflexivity]|].
        split; [intros [H|H]; discriminate | reflexivity].
Qed.

Lemma substring_long (s : string) n :
  (String.length s <= n)%nat -> substring 0 n s = s.
Proof.
  revert n. induction s as [|c s IH]; intros [|n] H; cbn [String.length] in H;
    try reflexivity; try lia.
  cbn [substring]. rewrite IH by lia. reflexivity.
Qed.

Lemma substring_split (s : string) m :
  String.append (substring 0 m s) (substring m (String.length s - m) s) = s.
Proof.
  revert m. induction s as [|c s IH]; intros [|m].
  - reflexivity.
  - reflexivity.
  - cbn [substring String.length String.append]. rewrite Nat.sub_0_r, substring_full.
    reflexivity.
  - cbn [substring String.length String.append Nat.sub]. rewrite IH. reflexivity.
Qed.

(** [check_if_subject_num_matches_subject_files_path] accepts a path
    exactly when the path ends with the decimal digits of the subject
    number; it raises otherwise. *)
Theorem subject_num_check_iff_suffix (subject_num : Z) (subject_files_path : string) :
  check_if_subject_num_matches_subject_files_path subject_num subject_files_path = Ok tt <->
  exists pre, subject_files_path = String.append pre (py_str_int subject_num).
Proof.
  unfold check_if_subject_num_matches_subject_files_path, py_neg_slice.
  pose proof (py_str_int_nonempty subject_num) as Hne.
  set (k := String.length (py_str_int subject_num)) in *.
  destruct (Nat.eqb_spec k 0) as [|_]; [contradiction|].
  split.
  - destruct (String.eqb_spec (substring (String.length subject_files_path - k) k
                                 subject_files_path) (py_str_int subject_num)) as [E|];
      [intros _ | discriminate].
    destruct (Nat.le_gt_cases k (String.length subject_files_path)) as [Hle|Hgt].
    + exists (substring 0 (String.length subject_files_path - k) subject_files_path).
      pose proof (substring_split subject_files_path
                    (String.length subject_files_path - k)) as Hs.
      replace (String.length subject_files_path
               - (String.length subject_files_path - k))%nat with k in Hs by lia.
      rewrite E in Hs. symmetry. exact Hs.
    + exists EmptyString. cbn [String.append]. rewrite <- E.
      replace (String.length subject_files_path - k)%nat with 0%nat by lia.
      symmetry. apply substring_long. lia.
  - intros [pre ->]. rewrite string_length_append.
    unfold k in *.
    replace (String.length pre + String.length (py_str_int subject_num)
             - String.length (py_str_int subject_num))%nat
      with (String.length pre) by lia.
    rewrite substring_suffix, String.eqb_refl. reflexivity.
Qed.

(** * Seconds since the start *)

Lemma nth_map_Z (f : Z -> nat) (l : list Z) i :
  (i < length l)%nat -> nth i (map f l) 0%nat = f (nth i l 0%Z).
Proof.
  intros Hi. rewrite (nth_indep _ 0%nat (f 0%Z)) by (rewrite length_map; exact Hi).
  apply map_nth.
Qed.

(** [num_seconds] gives one count per timestamp, the earliest timestamp
    gets 0, and the difference of two counts is the difference of their
    timestamps in seconds: the counts are the seconds elapsed since the
    earliest record. *)
Theorem num_seconds_elapsed (pandas_time_stamp : list Z) (secs : list nat) :
  num_seconds pandas_time_stamp = Ok secs ->
  length secs = length pandas_time_stamp /\ In 0%nat secs /\
  forall i j, (i < length pandas_time_stamp)%nat -> (j < length pandas_time_stamp)%nat ->
    (Z.of_nat (nth i secs 0%nat) - Z.of_nat (nth j secs 0%nat) =
     nth i pandas_time_stamp 0%Z - nth j pandas_time_stamp 0%Z)%Z.
Proof.
  intros H. pose proof (num_seconds_spec _ _ H) as [H0 [_ Hlen]].
  split; [exact Hlen|]. split; [exact H0|].
  unfold num_seconds in H. destruct (py_min pandas_time_stamp) as [m|e] eqn:Hm;
    cbn [bind] in H; [|discriminate]. injection H as <-.
  apply py_min_spec in Hm. destruct Hm as [_ Hle].
  intros i j Hi Hj. rewrite !nth_map_Z by assumption.
  pose proof (Hle _ (nth_In _ 0%Z Hi)). pose proof (Hle _ (nth_In _ 0%Z Hj)).
  rewrite !Z2Nat.id by lia. lia.
Qed.

Lemma num_seconds_elapsed_witness :
  num_seconds [5; 3; 9]%Z = Ok [2; 0; 6]%nat /\
  length [2; 0; 6]%nat = length [5; 3; 9]%Z /\ In 0%nat [2; 0; 6]%nat /\
  forall i j, (i < length [5; 3; 9]%Z)%nat -> (j < length [5; 3; 9]%Z)%nat ->
    (Z.of_nat (nth i [2; 0; 6]%nat 0%nat) - Z.of_nat (nth j [2; 0; 6]%nat 0%nat) =
     nth i [5; 3; 9]%Z 0%Z - nth j [5; 3; 9]%Z 0%Z)%Z.
Proof.
  assert (H : num_seconds [5; 3; 9]%Z = Ok [2; 0; 6]%nat) by (vm_compute; reflexivity).
  split; [exact H|]. exact (num_seconds_elapsed _ _ H).
Defined.

Lemma fold_min_shift (c : Z) (t : list Z) : forall cur,
  fold_left (fun cur y => if Z.ltb y cur then y else cur) (map (fun x => x + c) t)%Z (cur + c)%Z =
  (fold_left (fun cur y => if Z.ltb y cur then y else cur) t cur + c)%Z.
Proof.
  induction t as [|a t IH]; intros cur; simpl; [reflexivity|].
  destruct (Z.ltb_spec (a + c) (cur + c)), (Z.ltb_spec a cur); try lia; apply IH.
Qed.

(** [num_seconds] depends only on the differences between timestamps:
    shifting every timestamp by the same amount gives the same counts, and
    an empty column raises [ValueError] (from [min]). *)
Theorem num_seconds_shift (pandas_time_stamp : list Z) (c : Z) :
  num_seconds (map (fun t => t + c)%Z pandas_time_stamp) = num_seconds pandas_time_stamp /\
  num_seconds [] = Err ValueError.
Proof.
  split; [|reflexivity].
  destruct pandas_time_stamp as [|x t]; [reflexivity|].
  unfold num_seconds, py_min. cbn [map bind]. rewrite fold_min_shift.
  f_equal. cbn [map]. f_equal.
  - f_equal. lia.
  - rewrite map_map. apply map_ext. intros a. f_equal. lia.
Qed.

(** * The gap filler: errors, timestamps and provenance of the values *)

Lemma nodupb_true_NoDup (l : list nat) : nodupb l = true -> NoDup l.
Proof.
  induction l as [|x t IH]; simpl; intros H; [constructor|].
  apply andb_true_iff in H. destruct H as [H1 H2]. constructor; [|exact (IH H2)].
  apply negb_true_iff, mem_nat_false in H1. exact H1.
Qed.

Lemma input_secs_min df m :
  py_min (map rec_date_time df) = Ok m ->
  num_seconds (map rec_date_time df) =
    Ok (map (fun t => Z.to_nat (t - m)) (map rec_date_time df)) /\
  input_secs df = map (fun t => Z.to_nat (t - m)) (map rec_date_time df).
Proof.
  intros Hm. unfold input_secs, num_seconds. rewrite Hm. split; reflexivity.
Qed.

(** The record [find] returns for a label has that label as its second. *)
Lemma find_secs_Some df m z a r :
  py_min (map rec_date_time df) = Ok m ->
  find (fun p => Nat.eqb (fst p) z) (combine (input_secs df) df) = Some (a, r) ->
  a = z /\ In r df /\ rec_date_time r = (m + Z.of_nat z)%Z.
Proof.
  intros Hm Hf. destruct (input_secs_min df m Hm) as [_ Hs].
  pose proof (py_min_spec _ _ Hm) as [_ Hle].
  apply find_some in Hf. destruct Hf as [Hin Ha]. cbn [fst] in Ha.
  apply Nat.eqb_eq in Ha. subst a.
  rewrite Hs, map_map in Hin.
  assert (Hc : forall l : list rec,
            combine (map (fun x => Z.to_nat (rec_date_time x - m)) l) l =
            map (fun x => (Z.to_nat (rec_date_time x - m), x)) l).
  { induction l as [|x l IH]; simpl; [reflexivity | rewrite IH; reflexivity]. }
  rewrite Hc in Hin. apply in_map_iff in Hin. destruct Hin as [x [E Hx]].
  injection E as Ez Er. subst x.
  split; [reflexivity | split; [exact Hx|]].
  pose proof (Hle (rec_date_time r) (in_map _ _ _ Hx)). lia.
Qed.

Lemma find_secs_None df z :
  find (fun p => Nat.eqb (fst p) z) (combine (input_secs df) df) = None ->
  ~ In z (input_secs df).
Proof.
  intros H. apply find_label_None in H.
  rewrite map_fst_combine in H by apply input_secs_length. exact H.
Qed.

Lemma time_at_loc_set_meas df ls vs z :
  time_at (loc_set_many set_meas_sig_str df ls vs) z = time_at df z.
Proof.
  unfold loc_set_many. revert df vs. induction ls as [|a ls IH]; intros df vs.
  - reflexivity.
  - destruct vs as [|v vs]; [reflexivity|]. simpl. rewrite IH.
    unfold time_at. rewrite loc_row_loc_set.
    destruct (Nat.eqb z a); [|reflexivity].
    destruct (loc_row df z); reflexivity.
Qed.

Lemma time_at_loc_set_time df ls (f : nat -> option Z) z :
  time_at (loc_set_many set_date_time df ls (map f ls)) z =
  if mem_nat z ls then option_map (fun _ => f z) (loc_row df z)
  else time_at df z.
Proof.
  unfold loc_set_many. rewrite combine_map_r. revert df.
  induction ls as [|a ls IH]; intros df; simpl.
  - reflexivity.
  - rewrite IH. unfold mem_nat in *. simpl.
    unfold time_at. rewrite !loc_row_loc_set.
    destruct (Nat.eqb z a) eqn:E; simpl.
    + apply Nat.eqb_eq in E. subst.
      destruct (existsb (Nat.eqb a) ls); destruct (loc_row df a); reflexivity.
    + reflexivity.
Qed.

Lemma time_at_fill_signal full missing_secs z :
  time_at (fill_missing_signal_values full missing_secs) z = time_at full z.
Proof.
  unfold fill_missing_signal_values.
  set (labels := map fst full).
  set (orig := fun i => match loc_row full i with Some r => meas_sig_str r | None => None end).
  set (newcol := newcol_of missing_secs).
  assert (H : forall ks st,
            time_at (fst (fold_left (fill_step orig missing_secs labels newcol) ks st)) z =
            time_at (fst st) z).
  { induction ks as [|k ks IH]; intros st; [reflexivity|].
    cbn [fold_left]. rewrite IH. destruct st as [f c]. unfold fill_step.
    destruct (Z.eqb (snd k) (-1000)); [|reflexivity].
    destruct (Nat.leb _ _); [|reflexivity]. cbn [fst]. apply time_at_loc_set_meas. }
  apply H.
Qed.

(** The row the re-indexing gives to a second: the record's time, or NaT. *)
Lemma reindex_time df m z :
  py_min (map rec_date_time df) = Ok m ->
  date_time (reindex_row (combine (input_secs df) (map row_of_rec df)) z) =
  if mem_nat z (input_secs df) then Some (m + Z.of_nat z)%Z else None.
Proof.
  intros Hm. unfold reindex_row. rewrite loc_row_indexed.
  destruct (find (fun p => Nat.eqb (fst p) z) (combine (input_secs df) df))
    as [[a r]|] eqn:Hf.
  - destruct (find_secs_Some df m z a r Hm Hf) as [-> [_ Ht]].
    apply find_some in Hf. destruct Hf as [Hin _].
    apply in_combine_l in Hin. apply mem_nat_In in Hin. rewrite Hin.
    cbn. rewrite Ht. reflexivity.
  - apply find_secs_None, mem_nat_false in Hf. rewrite Hf. reflexivity.
Qed.

Lemma fold_min_opt_keep (t : list (option Z)) cur :
  (forall y, In y t -> opt_lt y cur = false) ->
  fold_left (fun cur y => if opt_lt y cur then y else cur) t cur = cur.
Proof.
  induction t as [|a t IH]; intros H; simpl; [reflexivity|].
  rewrite (H a (or_introl eq_refl)). apply IH. intros y Hy. apply H. right. exact Hy.
Qed.

(** The final gate of [fill_missing_data] returns the frame it is given. *)
Lemma gate_Ok (full out : dense_frame) :
  match check_if_data_frame_is_valid (Some full) with
  | Ok _ => Ok full
  | Err DataFrameContainsNans => Ok full
  | Err e => Err e
  end = Ok out -> out = full.
Proof.
  destruct (check_if_data_frame_is_valid (Some full)) as [u|[]]; intros H;
    try discriminate; injection H as H; symmetry; exact H.
Qed.

(** On the path with missing seconds, every second below the maximum gets
    the time [m + s]. *)
Lemma fill_missing_data_gap_times df m mx out :
  NoDup (map rec_date_time df) ->
  py_min (map rec_date_time df) = Ok m ->
  py_max_nat (input_secs df) = Ok mx ->
  missing_of df mx <> [] ->
  fill_missing_data df = Ok out ->
  forall z, (z < mx)%nat -> time_at out z = Some (Some (m + Z.of_nat z))%Z.
Proof.
  intros Hnd Hm Hmx Hne Hout z Hz.
  destruct (input_secs_min df m Hm) as [Hns Hsecs].
  set (secs := map (fun t => Z.to_nat (t - m)) (map rec_date_time df)) in *.
  pose proof (num_seconds_spec _ _ Hns) as [H0 [Hnd' _]]. specialize (Hnd' Hnd).
  assert (Hmxpos : (0 < mx)%nat) by (destruct mx; [exfalso; apply Hne; reflexivity | lia]).
  set (indexed := combine secs (map row_of_rec df)).
  set (full := map (fun s => (s, reindex_row indexed s)) (seq 0 mx)).
  assert (Hmissing : filter (fun s => negb (mem_nat s secs)) (seq 0 mx) = missing_of df mx)
    by (unfold missing_of; rewrite Hsecs; reflexivity).
  assert (Hrt : forall s, date_time (reindex_row indexed s) =
                          if mem_nat s secs then Some (m + Z.of_nat s)%Z else None)
    by (intros s; unfold indexed; rewrite <- Hsecs; apply reindex_time; exact Hm).
  assert (Hmin : py_min_opt (map (fun p => date_time (snd p)) full) = Ok (Some m)).
  { unfold full. destruct mx as [|mx']; [lia|]. cbn [seq map py_min_opt snd].
    rewrite Hrt. assert (E0 : mem_nat 0 secs = true) by (apply mem_nat_In; exact H0).
    rewrite E0, Z.add_0_r. f_equal. apply fold_min_opt_keep.
    intros y Hy. apply in_map_iff in Hy. destruct Hy as [[s r] [<- Hy]].
    apply in_map_iff in Hy. destruct Hy as [s' [E _]]. injection E as <- <-.
    cbn [snd]. rewrite Hrt. destruct (mem_nat s' secs); [|reflexivity].
    cbn. apply Z.ltb_ge. lia. }
  unfold fill_missing_data in Hout. rewrite Hns, bind_Ok, <- Hsecs, Hmx, bind_Ok in Hout.
  rewrite Hsecs in Hout. rewrite (nodupb_NoDup _ Hnd') in Hout. cbn [negb andb] in Hout.
  cbv zeta in Hout. fold indexed full in Hout. rewrite Hmissing in Hout.
  rewrite match_list_nonempty in Hout by exact Hne.
  unfold fill_missing_time_stamps in Hout. rewrite Hmin, !bind_Ok in Hout.
  apply gate_Ok in Hout. subst out.
  rewrite time_at_fill_signal.
  rewrite (time_at_loc_set_time full (missing_of df mx)
             (fun s => option_map (fun t => (t + Z.of_nat s)%Z) (Some m))).
  assert (Hrow : loc_row full z = Some (reindex_row indexed z)).
  { unfold full. rewrite loc_row_map_seq.
    destruct (Nat.leb_spec 0 z), (Nat.ltb_spec z (0 + mx)); try lia. reflexivity. }
  destruct (mem_nat z (missing_of df mx)) eqn:Ez.
  - rewrite Hrow. reflexivity.
  - unfold time_at. rewrite Hrow. cbn [option_map]. rewrite Hrt.
    destruct (mem_nat z secs) eqn:Es; [reflexivity|].
    exfalso. apply mem_nat_false in Es. rewrite <- Hsecs in Es.
    assert (mem_nat z (missing_of df mx) = true) by (apply mem_missing_of; split; assumption).
    congruence.
Qed.

(** With nothing missing below the maximum, the input is returned with its
    seconds as labels, in input order. *)
Lemma fill_missing_data_fast df secs mx :
  num_seconds (map rec_date_time df) = Ok secs ->
  py_max_nat secs = Ok mx ->
  missing_of df mx = [] ->
  nodupb secs = true \/ mx = 0%nat ->
  fill_missing_data df = Ok (combine secs (map row_of_rec df)).
Proof.
  intros Hns Hmx Hmiss Hd.
  assert (Hsecs : input_secs df = secs) by (unfold input_secs; rewrite Hns; reflexivity).
  unfold fill_missing_data. rewrite Hns, bind_Ok, Hmx, bind_Ok.
  assert (Hc : negb (nodupb secs) && negb (Nat.eqb mx 0) = false).
  { destruct Hd as [-> | ->]; [reflexivity | apply andb_false_r]. }
  rewrite Hc. cbv zeta.
  assert (Hf : filter (fun s => negb (mem_nat s secs)) (seq 0 mx) = [])
    by (rewrite <- Hsecs; exact Hmiss).
  rewrite Hf, bind_Ok.
  unfold check_if_data_frame_is_valid. cbn [frame_len frame_any_null dense_frame_Frame].
  assert (Hlen : length (combine secs (map row_of_rec df)) <> 0%nat).
  { pose proof (num_seconds_spec _ _ Hns) as [H0 [_ Hl]].
    rewrite length_map in Hl. rewrite length_combine, length_map, Hl, Nat.min_id, <- Hl.
    destruct secs; [destruct H0 | cbn [length]; lia]. }
  destruct (Nat.eqb_spec (length (combine secs (map row_of_rec df))) 0); [contradiction|].
  destruct (existsb _ _); reflexivity.
Qed.

(** [fill_missing_data] only ever raises [ValueError], and does so exactly
    when the input is empty ([min] of nothing) or when two records share a
    timestamp while the records do not all have the same timestamp
    ([reindex] refuses a duplicate index). *)
Theorem fill_missing_data_errors (subject_df : list rec) :
  (forall e, fill_missing_data subject_df = Err e -> e = ValueError) /\
  (fill_missing_data subject_df = Err ValueError <->
   subject_df = [] \/
   (~ NoDup (map rec_date_time subject_df) /\
    exists r1 r2, In r1 subject_df /\ In r2 subject_df /\
                  rec_date_time r1 <> rec_date_time r2)).
Proof.
  destruct subject_df as [|r0 rs] eqn:Edf.
  { split; [intros e H; injection H as <-; reflexivity | split; [left; reflexivity | reflexivity]]. }
  rewrite <- Edf. set (df := subject_df) in *.
  assert (Hne : df <> []) by (rewrite Edf; discriminate).
  destruct (py_min (map rec_date_time df)) as [m|e] eqn:Hm;
    [| rewrite Edf in Hm; discriminate].
  destruct (input_secs_min df m Hm) as [Hns Hsecs].
  set (secs := map (fun t => Z.to_nat (t - m)) (map rec_date_time df)) in *.
  pose proof (num_seconds_spec _ _ Hns) as [H0 [HndS Hlen]].
  pose proof (py_min_spec _ _ Hm) as [_ Hle].
  destruct (py_max_nat secs) as [mx|e] eqn:Hmx; [| destruct secs; [destruct H0 | discriminate]].
  pose proof (py_max_nat_spec _ _ Hmx) as [Hmxin Hmxle].
  destruct (nodupb secs) eqn:Hnb.
  - (* distinct timestamps: the filler succeeds *)
    assert (Hnd : NoDup (map rec_date_time df))
      by (apply (NoDup_map_inv (fun t => Z.to_nat (t - m))), nodupb_true_NoDup; exact Hnb).
    assert (Hsucc : exists out, fill_missing_data df = Ok out).
    { destruct (missing_of df mx) eqn:Hmiss.
      - eexists. apply (fill_missing_data_fast df secs mx Hns Hmx Hmiss). left; exact Hnb.
      - rewrite <- Hsecs in Hmx.
        destruct (fill_missing_data_gap_path df mx Hnd Hmx ltac:(rewrite Hmiss; discriminate))
          as [out [Hout _]].
        exists out. exact Hout. }
    destruct Hsucc as [out Hout]. rewrite Hout.
    split; [intros e H; discriminate|].
    split; [discriminate|]. intros [H|[H _]]; [contradiction | contradiction].
  - assert (Hnd : ~ NoDup (map rec_date_time df)).
    { intros Hnd. apply HndS, nodupb_NoDup in Hnd. congruence. }
    destruct (Nat.eqb_spec mx 0) as [Hz|Hnz].
    + (* all timestamps equal: the fast path returns the input *)
      assert (Hmiss : missing_of df mx = []) by (rewrite Hz; reflexivity).
      rewrite (fill_missing_data_fast df secs mx Hns Hmx Hmiss (or_intror Hz)).
      split; [intros e H; discriminate|].
      split; [discriminate|].
      intros [H|[_ [r1 [r2 [H1 [H2 Hdiff]]]]]]; [contradiction|].
      exfalso. apply Hdiff.
      assert (Hr : forall r, In r df -> rec_date_time r = m).
      { intros r Hr. pose proof (Hle _ (in_map _ _ _ Hr)).
        assert (Hs : In (Z.to_nat (rec_date_time r - m)) secs)
          by (unfold secs; apply (in_map (fun t => Z.to_nat (t - m))), in_map; exact Hr).
        specialize (Hmxle _ Hs). lia. }
      rewrite (Hr r1 H1), (Hr r2 H2). reflexivity.
    + (* duplicates over more than one second: reindex raises *)
      assert (Herr : fill_missing_data df = Err ValueError).
      { unfold fill_missing_data. rewrite Hns, bind_Ok, Hmx, bind_Ok, Hnb.
        destruct (Nat.eqb_spec mx 0); [contradiction | reflexivity]. }
      rewrite Herr. split; [intros e H; injection H as <-; reflexivity|].
      split; [intros _; right|intros _; reflexivity].
      split; [exact Hnd|].
      unfold secs in Hmxin, H0. rewrite map_map in Hmxin, H0.
      apply in_map_iff in Hmxin. destruct Hmxin as [r1 [E1 H1]].
      apply in_map_iff in H0. destruct H0 as [r2 [E2 H2]].
      exists r1, r2. split; [exact H1 | split; [exact H2|]].
      pose proof (Hle _ (in_map _ _ _ H1)). pose proof (Hle _ (in_map _ _ _ H2)).
      lia.
Qed.

(** Whenever [fill_missing_data] succeeds, every row it returns, filled
    ones included, carries a timestamp, and the row labelled [s] has the
    earliest input timestamp plus [s] seconds. *)
Theorem fill_missing_data_time_stamps (subject_df : list rec) (m : Z) (out : dense_frame) :
  py_min (map rec_date_time subject_df) = Ok m ->
  fill_missing_data subject_df = Ok out ->
  forall s, In s (map fst out) -> time_at out s = Some (Some (m + Z.of_nat s))%Z.
Proof.
  intros Hm Hout s Hs. set (df := subject_df) in *.
  destruct (input_secs_min df m Hm) as [Hns Hsecs].
  set (secs := map (fun t => Z.to_nat (t - m)) (map rec_date_time df)) in *.
  pose proof (num_seconds_spec _ _ Hns) as [H0 [HndS Hlen]].
  destruct (py_max_nat secs) as [mx|e] eqn:Hmx; [| destruct secs; [destruct H0 | discriminate]].
  destruct (nodupb secs) eqn:Hnb.
  - assert (Hnd : NoDup (map rec_date_time df))
      by (apply (NoDup_map_inv (fun t => Z.to_nat (t - m))), nodupb_true_NoDup; exact Hnb).
    destruct (missing_of df mx) eqn:Hmiss.
    + rewrite (fill_missing_data_fast df secs mx Hns Hmx Hmiss (or_introl Hnb)) in Hout.
      injection Hout as <-.
      unfold time_at. rewrite <- Hsecs, loc_row_indexed.
      destruct (find (fun p => Nat.eqb (fst p) s) (combine (input_secs df) df))
        as [[a r]|] eqn:Hf.
      * destruct (find_secs_Some df m s a r Hm Hf) as [_ [_ Ht]]. cbn. rewrite Ht. reflexivity.
      * exfalso. apply find_secs_None in Hf. apply Hf.
        rewrite map_fst_combine in Hs by (rewrite length_map, Hlen, length_map; lia).
        rewrite Hsecs. exact Hs.
    + rewrite <- Hsecs in Hmx.
      assert (Hne : missing_of df mx <> []) by (rewrite Hmiss; discriminate).
      destruct (fill_missing_data_gap_path df mx Hnd Hmx Hne) as [out' [Hout' [Hlab _]]].
      rewrite Hout' in Hout. injection Hout as <-.
      rewrite Hlab in Hs. apply in_seq in Hs.
      apply (fill_missing_data_gap_times df m mx out' Hnd Hm Hmx Hne Hout'). lia.
  - destruct (Nat.eqb_spec mx 0) as [Hz|Hnz].
    + assert (Hmiss : missing_of df mx = []) by (rewrite Hz; reflexivity).
      rewrite (fill_missing_data_fast df secs mx Hns Hmx Hmiss (or_intror Hz)) in Hout.
      injection Hout as <-.
      unfold time_at. rewrite <- Hsecs, loc_row_indexed.
      destruct (find (fun p => Nat.eqb (fst p) s) (combine (input_secs df) df))
        as [[a r]|] eqn:Hf.
      * destruct (find_secs_Some df m s a r Hm Hf) as [_ [_ Ht]]. cbn. rewrite Ht. reflexivity.
      * exfalso. apply find_secs_None in Hf. apply Hf.
        rewrite map_fst_combine in Hs by (rewrite length_map, Hlen, length_map; lia).
        rewrite Hsecs. exact Hs.
    + unfold fill_missing_data in Hout. rewrite Hns, bind_Ok, Hmx, bind_Ok, Hnb in Hout.
      destruct (Nat.eqb_spec mx 0); [contradiction | discriminate].
Qed.

Lemma fill_missing_data_time_stamps_witness :
  py_min (map rec_date_time (ex_recs [(0, 5); (1, 6); (3, 7)]%Z)) = Ok 1495756799%Z /\
  fill_missing_data (ex_recs [(0, 5); (1, 6); (3, 7)]%Z) = Ok fill_example_out /\
  forall s, In s (map fst fill_example_out) ->
    time_at fill_example_out s = Some (Some (1495756799 + Z.of_nat s))%Z.
Proof.
  assert (H1 : py_min (map rec_date_time (ex_recs [(0, 5); (1, 6); (3, 7)]%Z))
               = Ok 1495756799%Z) by (vm_compute; reflexivity).
  assert (H2 : fill_missing_data (ex_recs [(0, 5); (1, 6); (3, 7)]%Z) = Ok fill_example_out)
    by (vm_compute; reflexivity).
  split; [exact H1|]. split; [exact H2|].
  exact (fill_missing_data_time_stamps _ _ _ H1 H2).
Defined.

Lemma meas_at_indexed df s v :
  meas_at (combine (input_secs df) (map row_of_rec df)) s = Some (Some v) ->
  In s (input_secs df) /\ sig_of_sec df s = Some v.
Proof.
  unfold meas_at, sig_of_sec. rewrite loc_row_indexed.
  destruct (find (fun p => Nat.eqb (fst p) s) (combine (input_secs df) df))
    as [[a r]|] eqn:Hf; [|discriminate].
  cbn. intros H. injection H as H. split; [|rewrite H; reflexivity].
  apply find_some in Hf. destruct Hf as [Hin Ha]. cbn [fst] in Ha.
  apply Nat.eqb_eq in Ha. subst a. apply in_combine_l in Hin. exact Hin.
Qed.

(** [fill_missing_data] never invents a signal value: every value in its
    output was measured at some second of the input; at a measured second
    it is that second's own value, and at a filled second it was measured
    at a strictly earlier second. *)
Theorem fill_missing_data_values_from_input (subject_df : list rec) (out : dense_frame) :
  fill_missing_data subject_df = Ok out ->
  forall s v, meas_at out s = Some (Some v) ->
    exists s', In s' (input_secs subject_df) /\ sig_of_sec subject_df s' = Some v /\
      (In s (input_secs subject_df) -> s' = s) /\
      (~ In s (input_secs subject_df) -> (s' < s)%nat).
Proof.
  intros Hout s v Hv. set (df := subject_df) in *.
  destruct (py_min (map rec_date_time df)) as [m|e] eqn:Hm;
    [| destruct df; [discriminate | discriminate]].
  destruct (input_secs_min df m Hm) as [Hns Hsecs].
  set (secs := map (fun t => Z.to_nat (t - m)) (map rec_date_time df)) in *.
  pose proof (num_seconds_spec _ _ Hns) as [H0 [HndS Hlen]].
  destruct (py_max_nat secs) as [mx|e] eqn:Hmx; [| destruct secs; [destruct H0 | discriminate]].
  assert (Hfast : out = combine secs (map row_of_rec df) ->
            exists s', In s' (input_secs df) /\ sig_of_sec df s' = Some v /\
              (In s (input_secs df) -> s' = s) /\ (~ In s (input_secs df) -> (s' < s)%nat)).
  { intros ->. rewrite <- Hsecs in Hv. apply meas_at_indexed in Hv. destruct Hv as [Hin Hs].
    exists s. split; [exact Hin|]. split; [exact Hs|].
    split; [reflexivity | intros H; contradiction]. }
  destruct (nodupb secs) eqn:Hnb.
  - assert (Hnd : NoDup (map rec_date_time df))
      by (apply (NoDup_map_inv (fun t => Z.to_nat (t - m))), nodupb_true_NoDup; exact Hnb).
    destruct (missing_of df mx) eqn:Hmiss.
    + rewrite (fill_missing_data_fast df secs mx Hns Hmx Hmiss (or_introl Hnb)) in Hout.
      injection Hout as Hout. apply Hfast. symmetry. exact Hout.
    + rewrite <- Hsecs in Hmx.
      assert (Hne : missing_of df mx <> []) by (rewrite Hmiss; discriminate).
      destruct (fill_missing_data_gap_path df mx Hnd Hmx Hne)
        as [out' [Hout' [Hlab [Hmeas Hgap]]]].
      rewrite Hout' in Hout. injection Hout as <-.
      assert (Hs : (s < mx)%nat).
      { destruct (loc_row out' s) eqn:Hr; [|unfold meas_at in Hv; rewrite Hr in Hv; discriminate].
        assert (Hin : In s (map fst out')).
        { destruct (In_dec Nat.eq_dec s (map fst out')) as [Hin|Hn]; [exact Hin|].
          apply loc_row_None in Hn. congruence. }
        rewrite Hlab in Hin. apply in_seq in Hin. lia. }
      destruct (In_dec Nat.eq_dec s (input_secs df)) as [Hin|Hnin].
      * exists s. split; [exact Hin|]. split; [symmetry; exact (Hmeas s (Some v) Hin Hv)|].
        split; [reflexivity | intros H; contradiction].
      * pose proof (Hgap s Hs Hnin) as Hg. cbv zeta in Hg. rewrite Hv in Hg.
        set (newcol := newcol_of (missing_of df mx)) in Hg.
        set (L := length (group_index (seq 0 mx) newcol (key_of newcol s))) in Hg.
        assert (HL : (1 <= L)%nat).
        { assert (Hg' : In s (group_index (seq 0 mx) newcol (key_of newcol s))).
          { apply filter_In. split; [apply in_seq; lia | apply key_eqb_eq; reflexivity]. }
          unfold L. destruct (group_index (seq 0 mx) newcol (key_of newcol s));
            [destruct Hg' | cbn [length]; lia]. }
        destruct (Nat.leb L 300); [|discriminate].
        destruct (Nat.ltb_spec s L); [discriminate|].
        injection Hg as Hg.
        exists (s - L)%nat. split.
        -- destruct (In_dec Nat.eq_dec (s - L) (input_secs df)) as [Hi|Hi]; [exact Hi|].
           rewrite sig_of_sec_None in Hg by exact Hi. discriminate.
        -- split; [symmetry; exact Hg|]. split; [intros Hi; contradiction | intros _; lia].
  - destruct (Nat.eqb_spec mx 0) as [Hz|Hnz].
    + assert (Hmiss : missing_of df mx = []) by (rewrite Hz; reflexivity).
      rewrite (fill_missing_data_fast df secs mx Hns Hmx Hmiss (or_intror Hz)) in Hout.
      injection Hout as Hout. apply Hfast. symmetry. exact Hout.
    + unfold fill_missing_data in Hout. rewrite Hns, bind_Ok, Hmx, bind_Ok, Hnb in Hout.
      destruct (Nat.eqb_spec mx 0); [contradiction | discriminate].
Qed.

Lemma fill_missing_data_values_from_input_witness :
  fill_missing_data (ex_recs [(0, 5); (1, 6); (3, 7)]%Z) = Ok fill_example_out /\
  forall s v, meas_at fill_example_out s = Some (Some v) ->
    exists s', In s' (input_secs (ex_recs [(0, 5); (1, 6); (3, 7)]%Z)) /\
      sig_of_sec (ex_recs [(0, 5); (1, 6); (3, 7)]%Z) s' = Some v /\
      (In s (input_secs (ex_recs [(0, 5); (1, 6); (3, 7)]%Z)) -> s' = s) /\
      (~ In s (input_secs (ex_recs [(0, 5); (1, 6); (3, 7)]%Z)) -> (s' < s)%nat).
Proof.
  assert (H : fill_missing_data (ex_recs [(0, 5); (1, 6); (3, 7)]%Z) = Ok fill_example_out)
    by (vm_compute; reflexivity).
  split; [exact H|]. exact (fill_missing_data_values_from_input _ _ H).
Defined.

(** * Day numbers *)

Lemma fold_last_hit (P : nat -> bool) n k (v : option nat) :
  (k < n)%nat -> P k = true -> (forall d, (k < d < n)%nat -> P d = false) ->
  fold_left (fun v d => if P d then Some (d + 1)%nat else v) (seq 0 n) v = Some (k + 1)%nat.
Proof.
  revert k. induction n as [|n IH]; intros k Hk Hp Hafter; [lia|].
  rewrite seq_S, fold_left_app. cbn [fold_left]. cbn [Nat.add].
  destruct (Nat.eq_dec k n) as [->|Hne].
  - rewrite Hp. reflexivity.
  - rewrite (Hafter n) by lia. apply IH; [lia | exact Hp | intros d Hd; apply Hafter; lia].
Qed.

Lemma fold_no_hit (P : nat -> bool) n (v : option nat) :
  (forall d, (d < n)%nat -> P d = false) ->
  fold_left (fun v d => if P d then Some (d + 1)%nat else v) (seq 0 n) v = v.
Proof.
  induction n as [|n IH]; intros Hno; [reflexivity|].
  rewrite seq_S, fold_left_app. cbn [fold_left Nat.add].
  rewrite (Hno n) by lia. apply IH. intros d Hd. apply Hno. lia.
Qed.

Lemma map_snd_combine {A B : Type} (l1 : list A) (l2 : list B) :
  length l1 = length l2 -> map snd (combine l1 l2) = l2.
Proof.
  revert l2. induction l1 as [|a l1 IH]; intros [|b l2] H; cbn in H |- *;
    try reflexivity; try discriminate.
  rewrite IH by lia. reflexivity.
Qed.

Lemma combine_map_combine {A B C : Type} (g : A * B -> C) (l1 : list A) (l2 : list B) :
  length l1 = length l2 ->
  combine l1 (map g (combine l1 l2)) = map (fun p => (fst p, g p)) (combine l1 l2).
Proof.
  revert l2. induction l1 as [|a l1 IH]; intros [|b l2] H; cbn in H |- *;
    try reflexivity; try discriminate.
  rewrite IH by lia. reflexivity.
Qed.

(** The loop over the days, record by record. *)
Lemma assign_days_pointwise (date_time : list (nat * Z)) (day_onsets : list Z)
    (next_day_onset : Z) ds (nums : list (option nat)) :
  length nums = length date_time ->
  fold_left (assign_day date_time day_onsets next_day_onset) ds nums =
  map (fun p => fold_left (fun v d =>
         if Z.leb (nth d day_onsets 0%Z) (fst p) &&
            Z.ltb (fst p) (if Nat.ltb (d + 1) (length day_onsets - 1)
                           then nth (d + 1) day_onsets 0%Z else next_day_onset)
         then Some (d + 1)%nat else v) ds (snd p))
      (combine (map snd date_time) nums).
Proof.
  revert nums. induction ds as [|d ds IH]; intros nums Hlen; cbn [fold_left].
  - symmetry. apply map_snd_combine. rewrite length_map. lia.
  - rewrite IH.
    2:{ unfold assign_day. rewrite length_map, length_combine, length_map. lia. }
    unfold assign_day.
    rewrite combine_map_combine by (rewrite length_map; lia).
    rewrite map_map.
    apply map_ext. intros [t v]. reflexivity.
Qed.

Lemma nth_map_seq0 {A : Type} (f : nat -> A) m i d :
  (i < m)%nat -> nth i (map f (seq 0 m)) d = f i.
Proof.
  intros Hi.
  rewrite (nth_indep (map f (seq 0 m)) d (f 0%nat)) by (rewrite length_map, length_seq; exact Hi).
  rewrite map_nth, seq_nth by exact Hi. reflexivity.
Qed.

Lemma nth_onset (t0 b0 : Z) m i :
  (i < m)%nat ->
  nth (S i) (t0 :: map (fun i => b0 + 86400 * Z.of_nat i)%Z (seq 0 m)) 0%Z =
  (b0 + 86400 * Z.of_nat i)%Z.
Proof.
  intros Hi. exact (nth_map_seq0 (fun i => (b0 + 86400 * Z.of_nat i)%Z) m i 0%Z Hi).
Qed.

(** The day number the loop gives to one timestamp [t]. *)
Lemma day_of_record (t0 b0 t : Z) m :
  (t0 < b0)%Z ->
  fold_left (fun v d =>
    if Z.leb (nth d (t0 :: map (fun i => b0 + 86400 * Z.of_nat i)%Z (seq 0 m)) 0%Z) t &&
       Z.ltb t (if Nat.ltb (d + 1)
                      (length (t0 :: map (fun i => b0 + 86400 * Z.of_nat i)%Z (seq 0 m)) - 1)
                then nth (d + 1) (t0 :: map (fun i => b0 + 86400 * Z.of_nat i)%Z (seq 0 m)) 0%Z
                else (b0 + 86400 * Z.of_nat m)%Z)
    then Some (d + 1)%nat else v)
    (seq 0 (length (t0 :: map (fun i => b0 + 86400 * Z.of_nat i)%Z (seq 0 m)))) None =
  if Z.leb t0 t && Z.ltb t (b0 + 86400 * Z.of_nat m)
  then Some (if Z.ltb t b0 then 1%nat else (2 + Z.to_nat ((t - b0) / 86400))%nat)
  else None.
Proof.
  intros Hb.
  set (on := t0 :: map (fun i => b0 + 86400 * Z.of_nat i)%Z (seq 0 m)).
  assert (Hlen : length on = S m) by (unfold on; cbn [length]; rewrite length_map, length_seq; reflexivity).
  rewrite Hlen. replace (S m - 1)%nat with m by lia.
  assert (Ho0 : nth 0 on 0%Z = t0) by reflexivity.
  assert (HoS : forall i, (i < m)%nat -> nth (S i) on 0%Z = (b0 + 86400 * Z.of_nat i)%Z)
    by (intros i Hi; apply nth_onset; exact Hi).
  (* every onset is at least t0 and every end at most the final boundary *)
  assert (Hlo : forall d, (d < S m)%nat -> (t0 <= nth d on 0%Z)%Z).
  { intros [|i] Hd; [rewrite Ho0; lia | rewrite HoS by lia; lia]. }
  assert (Hhi : forall d, (d < S m)%nat ->
            ((if Nat.ltb (d + 1) m then nth (d + 1) on 0%Z else (b0 + 86400 * Z.of_nat m)%Z)
             <= b0 + 86400 * Z.of_nat m)%Z).
  { intros d Hd. destruct (Nat.ltb_spec (d + 1) m); [|lia].
    replace (d + 1)%nat with (S d) by lia. rewrite HoS by lia. lia. }
  destruct (Z.leb_spec t0 t), (Z.ltb_spec t (b0 + 86400 * Z.of_nat m)); cbn [andb].
  2-4: apply fold_no_hit; intros d Hd;
       specialize (Hlo d Hd); specialize (Hhi d Hd);
       destruct (Z.leb_spec (nth d on 0%Z) t), (Z.ltb_spec t (if Nat.ltb (d + 1) m
           then nth (d + 1) on 0%Z else (b0 + 86400 * Z.of_nat m)%Z)); cbn [andb];
       try reflexivity; lia.
  destruct (Z.ltb_spec t b0) as [Htb|Htb].
  - (* before the first noon boundary: day 1 *)
    apply (fold_last_hit _ (S m) 0%nat); [lia| |].
    + rewrite Ho0. destruct (Z.leb_spec t0 t); [|lia]. cbn [andb].
      change (0 + 1)%nat with 1%nat.
      destruct (Nat.ltb_spec 1 m).
      * rewrite (HoS 0%nat) by lia. apply Z.ltb_lt. lia.
      * apply Z.ltb_lt. lia.
    + intros [|i] Hd; [lia|]. rewrite HoS by lia.
      destruct (Z.leb_spec (b0 + 86400 * Z.of_nat i) t); [lia | reflexivity].
  - (* after it: one more day per whole 24 hours since the boundary *)
    pose proof (Z.div_mod (t - b0) 86400 ltac:(lia)) as Hd.
    pose proof (Z.mod_pos_bound (t - b0) 86400 ltac:(lia)) as Hmod.
    set (q := ((t - b0) / 86400)%Z) in *. set (r := ((t - b0) mod 86400)%Z) in *.
    assert (Hq0 : (0 <= q)%Z) by lia.
    assert (Hqm : (Z.to_nat q < m)%nat) by lia.
    replace (2 + Z.to_nat q)%nat with (S (Z.to_nat q) + 1)%nat by lia.
    apply fold_last_hit; [lia| |].
    + rewrite HoS by exact Hqm. rewrite Z2Nat.id by exact Hq0.
      destruct (Z.leb_spec (b0 + 86400 * q) t); [|lia]. cbn [andb].
      destruct (Nat.ltb_spec (S (Z.to_nat q) + 1) m).
      * replace (S (Z.to_nat q) + 1)%nat with (S (S (Z.to_nat q))) by lia.
        rewrite HoS by lia. apply Z.ltb_lt. lia.
      * apply Z.ltb_lt. lia.
    + intros [|i] Hdi; [lia|]. rewrite HoS by lia.
      destruct (Z.leb_spec (b0 + 86400 * Z.of_nat i) t); [lia | reflexivity].
Qed.

Section DayNumbers.

Variable to_local : Z -> Z.
Variable localize : Z -> Z.

Lemma compute_day_onsets_shape (date_time : list (nat * Z)) (t0 tend : Z) :
  loc_label date_time 0 = Ok t0 ->
  loc_label date_time (length date_time - 1) = Ok tend ->
  let b0 :=
    if Z.ltb (local_hour to_local t0) 12
    then localize (noon_of_date (local_date to_local t0))
    else localize (noon_of_date (local_date to_local t0) + 86400)%Z in
  exists m,
    compute_day_onsets to_local localize date_time =
      Ok (t0 :: map (fun i => b0 + 86400 * Z.of_nat i)%Z (seq 0 m),
          (b0 + 86400 * Z.of_nat m)%Z) /\
    (forall i, (i < m)%nat -> (b0 + 86400 * Z.of_nat i < tend)%Z) /\
    (tend <= b0 + 86400 * Z.of_nat m)%Z.
Proof.
  intros H0 H1 b0.
  unfold compute_day_onsets. rewrite H0, H1. cbn [bind]. fold b0.
  destruct (collect_onsets_spec (loop_fuel b0 tend) b0 tend [t0]
              (loop_fuel_bound _ _)) as [m [Hc Hr]].
  exists m. rewrite Hc. split; [reflexivity | exact Hr].
Qed.

Lemma divide_day_numbers_shape (date_time : list (nat * Z)) (t0 tend : Z) :
  loc_label date_time 0 = Ok t0 ->
  loc_label date_time (length date_time - 1) = Ok tend ->
  let b0 :=
    if Z.ltb (local_hour to_local t0) 12
    then localize (noon_of_date (local_date to_local t0))
    else localize (noon_of_date (local_date to_local t0) + 86400)%Z in
  (t0 < b0)%Z ->
  exists m,
    (forall i, (i < m)%nat -> (b0 + 86400 * Z.of_nat i < tend)%Z) /\
    (tend <= b0 + 86400 * Z.of_nat m)%Z /\
    divide_to_24_hour_periods to_local localize date_time =
      Ok (map (fun t =>
                 if Z.leb t0 t && Z.ltb t (b0 + 86400 * Z.of_nat m)
                 then Some (if Z.ltb t b0 then 1%nat
                            else (2 + Z.to_nat ((t - b0) / 86400))%nat)
                 else None)
              (map snd date_time)).
Proof.
  intros H0 H1 b0 Hb.
  destruct (compute_day_onsets_shape date_time t0 tend H0 H1) as [m [Hc [Hlt Hge]]].
  fold b0 in Hc, Hlt, Hge.
  exists m. split; [exact Hlt|]. split; [exact Hge|].
  unfold divide_to_24_hour_periods. rewrite Hc. cbn [bind].
  rewrite assign_days_pointwise by apply repeat_length.
  f_equal.
  assert (Hrep : forall (l : list Z) n, length l = n ->
            combine l (repeat (@None nat) n) = map (fun t => (t, None)) l).
  { induction l as [|a l IH]; intros [|n] Hn; cbn in Hn |- *; try reflexivity; try discriminate.
    rewrite IH by lia. reflexivity. }
  rewrite Hrep by apply length_map. rewrite map_map.
  apply map_ext. intros t. cbn [fst snd]. apply day_of_record. exact Hb.
Qed.

End DayNumbers.

(** [divide_to_24_hour_periods], when the first noon boundary [b0] comes
    after the first timestamp [t0]: a record at time [t] gets day 1 if [t]
    is before [b0], and day [2 + k] if [t] is [k] whole days (and less than
    one more) after [b0]; this holds for every record in [t0, B), where [B]
    is the first boundary [b0 + 24h * m] not before the last timestamp
    [tend]; a record outside [t0, B) gets NaN. *)
Theorem divide_day_numbers (to_local localize : Z -> Z)
    (date_time : list (nat * Z)) (t0 tend : Z) :
  loc_label date_time 0 = Ok t0 ->
  loc_label date_time (length date_time - 1) = Ok tend ->
  let b0 :=
    if Z.ltb (local_hour to_local t0) 12
    then localize (noon_of_date (local_date to_local t0))
    else localize (noon_of_date (local_date to_local t0) + 86400)%Z in
  (t0 < b0)%Z ->
  exists m,
    (forall i, (i < m)%nat -> (b0 + 86400 * Z.of_nat i < tend)%Z) /\
    (tend <= b0 + 86400 * Z.of_nat m)%Z /\
    divide_to_24_hour_periods to_local localize date_time =
      Ok (map (fun t =>
                 if Z.leb t0 t && Z.ltb t (b0 + 86400 * Z.of_nat m)
                 then Some (if Z.ltb t b0 then 1%nat
                            else (2 + Z.to_nat ((t - b0) / 86400))%nat)
                 else None)
              (map snd date_time)).
Proof.
  exact (divide_day_numbers_shape to_local localize date_time t0 tend).
Qed.

Lemma divide_day_numbers_witness :
  loc_label (dense_times 1495738798 3) 0 = Ok 1495738798%Z /\
  loc_label (dense_times 1495738798 3) (length (dense_times 1495738798 3) - 1)
    = Ok 1495738800%Z /\
  let b0 :=
    if Z.ltb (local_hour pdt_to_local 1495738798) 12
    then pdt_localize (noon_of_date (local_date pdt_to_local 1495738798))
    else pdt_localize (noon_of_date (local_date pdt_to_local 1495738798) + 86400)%Z in
  (1495738798 < b0)%Z /\
  exists m,
    (forall i, (i < m)%nat -> (b0 + 86400 * Z.of_nat i < 1495738800)%Z) /\
    (1495738800 <= b0 + 86400 * Z.of_nat m)%Z /\
    divide_to_24_hour_periods pdt_to_local pdt_localize (dense_times 1495738798 3) =
      Ok (map (fun t =>
                 if Z.leb 1495738798 t && Z.ltb t (b0 + 86400 * Z.of_nat m)
                 then Some (if Z.ltb t b0 then 1%nat
                            else (2 + Z.to_nat ((t - b0) / 86400))%nat)
                 else None)
              (map snd (dense_times 1495738798 3))).
Proof.
  assert (H0 : loc_label (dense_times 1495738798 3) 0 = Ok 1495738798%Z)
    by (vm_compute; reflexivity).
  assert (H1 : loc_label (dense_times 1495738798 3) (length (dense_times 1495738798 3) - 1)
               = Ok 1495738800%Z)
    by (vm_compute; reflexivity).
  assert (Hb : (1495738798 <
                (if Z.ltb (local_hour pdt_to_local 1495738798) 12
                 then pdt_localize (noon_of_date (local_date pdt_to_local 1495738798))
                 else pdt_localize (noon_of_date (local_date pdt_to_local 1495738798) + 86400)%Z))%Z)
    by (vm_compute; reflexivity).
  split; [exact H0|]. split; [exact H1|]. split; [exact Hb|].
  exact (divide_day_numbers pdt_to_local pdt_localize _ _ _ H0 H1 Hb).
Defined.

(** Consequently, on such a timeline the day numbers never decrease with
    time and start at 1: if [t0 <= t_i <= t_j] and the record [j] has a day
    number, then so does the record [i], and [1 <= day_i <= day_j]. *)
Theorem divide_day_numbers_monotone (to_local localize : Z -> Z)
    (date_time : list (nat * Z)) (t0 tend : Z) :
  loc_label date_time 0 = Ok t0 ->
  loc_label date_time (length date_time - 1) = Ok tend ->
  let b0 :=
    if Z.ltb (local_hour to_local t0) 12
    then localize (noon_of_date (local_date to_local t0))
    else localize (noon_of_date (local_date to_local t0) + 86400)%Z in
  (t0 < b0)%Z ->
  exists day_nums,
    divide_to_24_hour_periods to_local localize date_time = Ok day_nums /\
    length day_nums = length date_time /\
    forall i j, (i < length date_time)%nat -> (j < length date_time)%nat ->
      (t0 <= nth i (map snd date_time) 0 <= nth j (map snd date_time) 0)%Z ->
      nth j day_nums None <> None ->
      exists a b, nth i day_nums None = Some a /\ nth j day_nums None = Some b /\
                  (1 <= a <= b)%nat.
Proof.
  intros H0 H1 b0 Hb.
  destruct (divide_day_numbers_shape to_local localize date_time t0 tend H0 H1 Hb)
    as [m [_ [_ Hd]]].
  fold b0 in Hd.
  set (day := fun t =>
                 if Z.leb t0 t && Z.ltb t (b0 + 86400 * Z.of_nat m)
                 then Some (if Z.ltb t b0 then 1%nat
                            else (2 + Z.to_nat ((t - b0) / 86400))%nat)
                 else None) in Hd.
  exists (map day (map snd date_time)). split; [exact Hd|].
  split; [rewrite !length_map; reflexivity|].
  intros i j Hi Hj Hij Hjd.
  assert (Hn : forall k, (k < length date_time)%nat ->
            nth k (map day (map snd date_time)) None = day (nth k (map snd date_time) 0%Z)).
  { intros k Hk. rewrite (nth_indep _ None (day 0%Z)) by (rewrite !length_map; exact Hk).
    apply map_nth. }
  rewrite Hn in Hjd |- * by assumption. rewrite Hn by assumption.
  set (ti := nth i (map snd date_time) 0%Z) in *.
  set (tj := nth j (map snd date_time) 0%Z) in *.
  unfold day in Hjd |- *.
  destruct (Z.leb_spec t0 tj), (Z.ltb_spec tj (b0 + 86400 * Z.of_nat m)); cbn [andb] in Hjd;
    try (exfalso; apply Hjd; reflexivity).
  destruct (Z.leb_spec t0 ti); [|lia]. destruct (Z.ltb_spec ti (b0 + 86400 * Z.of_nat m)); [|lia].
  cbn [andb]. eexists; eexists. split; [reflexivity|]. split; [reflexivity|].
  destruct (Z.ltb_spec ti b0), (Z.ltb_spec tj b0); try lia.
  pose proof (Z.div_le_mono (ti - b0) (tj - b0) 86400 ltac:(lia) ltac:(lia)).
  pose proof (Z.div_pos (ti - b0) 86400 ltac:(lia) ltac:(lia)).
  lia.
Qed.

Lemma divide_day_numbers_monotone_witness :
  loc_label (dense_times 1495738798 3) 0 = Ok 1495738798%Z /\
  loc_label (dense_times 1495738798 3) (length (dense_times 1495738798 3) - 1)
    = Ok 1495738800%Z /\
  let b0 :=
    if Z.ltb (local_hour pdt_to_local 1495738798) 12
    then pdt_localize (noon_of_date (local_date pdt_to_local 1495738798))
    else pdt_localize (noon_of_date (local_date pdt_to_local 1495738798) + 86400)%Z in
  (1495738798 < b0)%Z /\
  exists day_nums,
    divide_to_24_hour_periods pdt_to_local pdt_localize (dense_times 1495738798 3) = Ok day_nums /\
    length day_nums = length (dense_times 1495738798 3) /\
    forall i j, (i < length (dense_times 1495738798 3))%nat ->
      (j < length (dense_times 1495738798 3))%nat ->
      (1495738798 <= nth i (map snd (dense_times 1495738798 3)) 0
                  <= nth j (map snd (dense_times 1495738798 3)) 0)%Z ->
      nth j day_nums None <> None ->
      exists a b, nth i day_nums None = Some a /\ nth j day_nums None = Some b /\
                  (1 <= a <= b)%nat.
Proof.
  assert (H0 : loc_label (dense_times 1495738798 3) 0 = Ok 1495738798%Z)
    by (vm_compute; reflexivity).
  assert (H1 : loc_label (dense_times 1495738798 3) (length (dense_times 1495738798 3) - 1)
               = Ok 1495738800%Z)
    by (vm_compute; reflexivity).
  assert (Hb : (1495738798 <
                (if Z.ltb (local_hour pdt_to_local 1495738798) 12
                 then pdt_localize (noon_of_date (local_date pdt_to_local 1495738798))
                 else pdt_localize (noon_of_date (local_date pdt_to_local 1495738798) + 86400)%Z))%Z)
    by (vm_compute; reflexivity).
  split; [exact H0|]. split; [exact H1|]. split; [exact Hb|].
  exact (divide_day_numbers_monotone pdt_to_local pdt_localize _ _ _ H0 H1 Hb).
Defined.

(** * [clean_up] and [convert_to_local_time] *)

Lemma remove_nth_0 {A : Type} (r : list A) : remove_nth 0 r = tl r.
Proof. destruct r; reflexivity. Qed.

Lemma clean_up_rows (rows : list (list (option string))) :
  map snd (filter fst
    (combine (map ne_time (map (fun r => nth 0 r None) (map (remove_nth 0) rows)))
             (map (remove_nth 0) rows))) =
  map (@tl _) (filter (fun r => ne_time (nth 1 r None)) rows).
Proof.
  induction rows as [|r rows IH]; [reflexivity|].
  cbn [map combine filter fst]. rewrite remove_nth_0.
  replace (nth 0 (tl r) None) with (nth 1 r None) by (destruct r as [|a [|b r]]; reflexivity).
  destruct (ne_time (nth 1 r None)); cbn [map snd]; rewrite IH; reflexivity.
Qed.

Lemma clean_up_result_aux (d : csv_frame) :
  columns d = expected_columns ->
  let kept := map (@tl _) (filter (fun r => ne_time (nth 1 r None)) (cells d)) in
  clean_up d =
    if Nat.eqb (length kept) 0 then Err DataFrameIsEmpty
    else if existsb (existsb (fun c => match c with None => true | Some _ => false end)) kept
    then Err DataFrameContainsNans
    else Ok (mkCsv ["time"; "meas_sig_str"; "status"]%string kept).
Proof.
  intros Hc kept.
  unfold clean_up, del_column. rewrite Hc.
  replace (py_index "name" expected_columns) with (Some 0%nat) by reflexivity.
  cbn [bind columns cells]. unfold get_column. cbn [columns cells].
  replace (py_index "time" (remove_nth 0 expected_columns)) with (Some 0%nat) by reflexivity.
  cbn [bind]. rewrite clean_up_rows. fold kept.
  replace (remove_nth 0 expected_columns) with ["time"; "meas_sig_str"; "status"]%string
    by reflexivity.
  unfold check_if_data_frame_is_valid. cbn [frame_len frame_any_null csv_frame_Frame cells].
  destruct (Nat.eqb (length kept) 0); [reflexivity|].
  destruct (existsb _ kept); reflexivity.
Qed.


(** [clean_up] on a DataFrame with the columns of a data file: the result
    has the columns [time], [meas_sig_str], [status] and, in order, every
    row whose [time] cell is not the string [time], without its [name]
    cell; it raises [DataFrameIsEmpty] when no row is left and
    [DataFrameContainsNans] when a kept row has a NaN. *)
Theorem clean_up_result (d : csv_frame) :
  columns d = expected_columns ->
  let kept := map (@tl _) (filter (fun r => ne_time (nth 1 r None)) (cells d)) in
  clean_up d =
    if Nat.eqb (length kept) 0 then Err DataFrameIsEmpty
    else if existsb (existsb (fun c => match c with None => true | Some _ => false end)) kept
    then Err DataFrameContainsNans
    else Ok (mkCsv ["time"; "meas_sig_str"; "status"]%string kept).
Proof. exact (clean_up_result_aux d). Qed.

Lemma clean_up_result_witness :
  columns clean_up_example = expected_columns /\
  let kept := map (@tl _) (filter (fun r => ne_time (nth 1 r None)) (cells clean_up_example)) in
  clean_up clean_up_example =
    if Nat.eqb (length kept) 0 then Err DataFrameIsEmpty
    else if existsb (existsb (fun c => match c with None => true | Some _ => false end)) kept
    then Err DataFrameContainsNans
    else Ok (mkCsv ["time"; "meas_sig_str"; "status"]%string kept).
Proof.
  assert (Hc : columns clean_up_example = expected_columns) by reflexivity.
  split; [exact Hc | exact (clean_up_result clean_up_example Hc)].
Defined.

(** [clean_up] cannot be run twice: its result has no [name] column, so
    running it again on that result raises [KeyError]. *)
Theorem clean_up_twice_key_error (d d' : csv_frame) :
  columns d = expected_columns ->
  clean_up d = Ok d' ->
  clean_up d' = Err KeyError.
Proof.
  intros Hc Hok. rewrite (clean_up_result_aux d Hc) in Hok.
  destruct (Nat.eqb _ 0); [discriminate|].
  destruct (existsb _ _); [discriminate|].
  injection Hok as <-. reflexivity.
Qed.

Lemma clean_up_twice_key_error_witness :
  columns clean_up_example = expected_columns /\
  clean_up clean_up_example =
    Ok (mkCsv ["time"; "meas_sig_str"; "status"]%string
          [[Some "2017-05-25T23:59:59Z"; Some "-61"; Some "ok"];
           [Some "2017-05-26T00:00:01Z"; Some "-60"; Some "ok"]]%string) /\
  clean_up (mkCsv ["time"; "meas_sig_str"; "status"]%string
          [[Some "2017-05-25T23:59:59Z"; Some "-61"; Some "ok"];
           [Some "2017-05-26T00:00:01Z"; Some "-60"; Some "ok"]]%string) = Err KeyError.
Proof.
  assert (Hc : columns clean_up_example = expected_columns) by reflexivity.
  assert (Hok : clean_up clean_up_example =
    Ok (mkCsv ["time"; "meas_sig_str"; "status"]%string
          [[Some "2017-05-25T23:59:59Z"; Some "-61"; Some "ok"];
           [Some "2017-05-26T00:00:01Z"; Some "-60"; Some "ok"]]%string))
    by (vm_compute; reflexivity).
  split; [exact Hc|]. split; [exact Hok|].
  exact (clean_up_twice_key_error _ _ Hc Hok).
Defined.

Lemma pd_to_datetime_ok (parse_datetime : string -> option Z) (l : list string) out :
  pd_to_datetime parse_datetime l = Ok out <-> map Some out = map parse_datetime l.
Proof.
  revert out. induction l as [|s l IH]; intros out; cbn [pd_to_datetime map].
  - split; [intros H; injection H as <-; reflexivity|].
    destruct out; [reflexivity | discriminate].
  - destruct (parse_datetime s) as [x|].
    + destruct (pd_to_datetime parse_datetime l) as [ts|e] eqn:Hp; cbn [bind].
      * split.
        -- intros H; injection H as <-. cbn [map]. f_equal. apply IH. reflexivity.
        -- destruct out as [|y out]; [discriminate|]. cbn [map]. intros H.
           injection H as -> Hm. apply IH in Hm. injection Hm as ->. reflexivity.
      * split; [discriminate|].
        destruct out as [|y out]; [discriminate|]. cbn [map]. intros H.
        injection H as _ Hm. apply IH in Hm. discriminate.
    + split; [discriminate|]. destruct out; discriminate.
Qed.

Lemma pd_to_datetime_err (parse_datetime : string -> option Z) (l : list string) e :
  pd_to_datetime parse_datetime l = Err e ->
  e = ValueError /\ exists s, In s l /\ parse_datetime s = None.
Proof.
  induction l as [|s l IH]; cbn [pd_to_datetime]; [discriminate|].
  destruct (parse_datetime s) eqn:Hs.
  - destruct (pd_to_datetime parse_datetime l) eqn:Hp; cbn [bind]; [discriminate|].
    intros H; injection H as ->. destruct (IH eq_refl) as [He [s' [Hin Hn]]].
    split; [exact He|]. exists s'. split; [right; exact Hin | exact Hn].
  - intros H; injection H as <-. split; [reflexivity|]. exists s. split; [left; reflexivity | exact Hs].
Qed.

(** [convert_to_local_time], for any date parser: it returns one instant
    per time stamp, the parse of the stamp with every [Z] removed and every
    [T] replaced by a space; otherwise it raises
    [DateTimeColumnIsDefectiveError] (never another error), and then some
    stamp, so normalised, does not parse. *)
Theorem convert_to_local_time_outcomes (parse_datetime : string -> option Z)
    (time_stamps : list string) :
  (forall out, convert_to_local_time parse_datetime time_stamps = Ok out <->
     map Some out =
     map (fun x => parse_datetime (py_replace_char "T" " " (py_replace_char "Z" "" x)))
         time_stamps) /\
  (forall e, convert_to_local_time parse_datetime time_stamps = Err e ->
     e = DateTimeColumnIsDefectiveError /\
     exists s, In s time_stamps /\
       parse_datetime (py_replace_char "T" " " (py_replace_char "Z" "" s)) = None).
Proof.
  unfold convert_to_local_time.
  assert (Heq : map (fun x => parse_datetime (py_replace_char "T" " " (py_replace_char "Z" "" x)))
                  time_stamps =
                map parse_datetime
                  (map (fun x => py_replace_char "T" " " (py_replace_char "Z" "" x)) time_stamps))
    by (rewrite map_map; reflexivity).
  destruct (pd_to_datetime parse_datetime
              (map (fun x => py_replace_char "T" " " (py_replace_char "Z" "" x)) time_stamps))
    as [dt|e0] eqn:Hp.
  - split.
    + intros out. rewrite Heq, <- pd_to_datetime_ok, Hp.
      split; intros H; injection H as ->; reflexivity.
    + intros e H; discriminate.
  - destruct (pd_to_datetime_err _ _ _ Hp) as [-> [s [Hin Hs]]].
    split.
    + intros out. split; [discriminate|]. rewrite Heq, <- pd_to_datetime_ok, Hp.
      discriminate.
    + intros e H. injection H as <-. split; [reflexivity|].
      apply in_map_iff in Hin. destruct Hin as [x [<- Hx]].
      exists x. split; [exact Hx | exact Hs].
Qed.
